(** * dracclient.utils: extraction of values from WSMAN response documents

    A shallow embedding of [dracclient/utils.py] and the properties of its
    response-field helpers.

    Modelling conventions:
    - a Python [str] is a [string]; case folding and whitespace follow
      Python 3 on the ASCII range (characters above 127 are left alone by
      [lower] and are not whitespace);
    - a Python value that is dynamically typed in the source (the overrides
      of [build_return_dict], the value given to [validate_integer_value])
      is a [pyval]; floating point numbers are not modelled;
    - a function that can raise returns a [result]: [Return v] or
      [Raise e];
    - a [dict] is a [gmap] with string keys;
    - the list that [validate_integer_value] appends to is threaded as
      explicit state. *)

From Stdlib Require Import ZArith Ascii String List Bool Lia.
From stdpp Require Import base option list strings pretty gmap fin_maps.

Local Open Scope string_scope.
Local Open Scope Z_scope.

(** ** Python values *)

#[warnings="-register-all"]
Inductive pyval : Type :=
| PyNone
| PyBool (b : bool)
| PyInt (n : Z)
| PyStr (s : string)
| PyList (items : list pyval).

(** Exceptions the module raises itself (the three [exceptions.*] classes)
    or lets escape from the interpreter. *)
Inductive exn : Type :=
| DRACMissingResponseField (attr : string)
| DRACEmptyResponseField (attr : string)
| InvalidParameterValue (reason : string)
| AttributeError (name : string)
| KeyError (key : string)
| TypeError
| ValueError.

Inductive result (A : Type) : Type :=
| Return (a : A)
| Raise (e : exn).
Arguments Return {A} a.
Arguments Raise {A} e.

(** Sequencing: the first exception raised ends the computation.  With
    these instances [x ← m; k] is stdpp's notation for it. *)
#[global] Instance result_ret : MRet result := fun A a => Return a.
#[global] Instance result_bind : MBind result := fun A B k m =>
  match m with
  | Return a => k a
  | Raise e => Raise e
  end.

#[global] Instance result_fmap : FMap result := fun A B f m =>
  match m with
  | Return a => Return (f a)
  | Raise e => Raise e
  end.

Definition raises {A : Type} (m : result A) : Prop :=
  exists e, m = Raise e.

(** ** Strings *)

Module Str.

(** [str.lower()] *)
Definition lower_char (c : ascii) : ascii :=
  let n := N_of_ascii c in
  if ((65 <=? n) && (n <=? 90))%N then ascii_of_N (n + 32) else c.

Fixpoint lower (s : string) : string :=
  match s with
  | EmptyString => EmptyString
  | String c s' => String (lower_char c) (lower s')
  end.

(** [str.isspace()] for one character: tab, LF, VT, FF, CR, the four
    separators FS, GS, RS and US, and the space. *)
Definition isspace (c : ascii) : bool :=
  let n := N_of_ascii c in
  (((9 <=? n) && (n <=? 13)) || ((28 <=? n) && (n <=? 32)))%N.

Fixpoint lstrip (s : string) : string :=
  match s with
  | EmptyString => EmptyString
  | String c s' => if isspace c then lstrip s' else s
  end.

Fixpoint rstrip (s : string) : string :=
  match s with
  | EmptyString => EmptyString
  | String c s' =>
      match rstrip s' with
      | EmptyString => if isspace c then EmptyString else String c EmptyString
      | r => String c r
      end
  end.

(** [str.strip()] *)
Definition strip (s : string) : string := rstrip (lstrip s).

(** [hay.startswith(prefix)] *)
Fixpoint startswith (prefix hay : string) : bool :=
  match prefix, hay with
  | EmptyString, _ => true
  | String c prefix', String d hay' => Ascii.eqb c d && startswith prefix' hay'
  | String _ _, EmptyString => false
  end.

(** [needle in hay]: some suffix of [hay] starts with [needle]. *)
Fixpoint contains (needle hay : string) : bool :=
  startswith needle hay ||
  match hay with
  | EmptyString => false
  | String _ hay' => contains needle hay'
  end.

Fixpoint last_char (s : string) : option ascii :=
  match s with
  | EmptyString => None
  | String c EmptyString => Some c
  | String _ s' => last_char s'
  end.

Definition all_space (s : string) : Prop :=
  forall c, In c (list_ascii_of_string s) -> isspace c = true.

End Str.

(** ** Python built-ins on [pyval] *)

(** [a == b] *)
Fixpoint py_eq (a b : pyval) : bool :=
  match a, b with
  | PyNone, PyNone => true
  | PyBool x, PyBool y => Bool.eqb x y
  | PyBool x, PyInt n | PyInt n, PyBool x => (n =? (if x then 1 else 0))
  | PyInt x, PyInt y => (x =? y)
  | PyStr x, PyStr y => String.eqb x y
  | PyList xs, PyList ys =>
      (fix go (xs ys : list pyval) : bool :=
         match xs, ys with
         | [], [] => true
         | x :: xs', y :: ys' => py_eq x y && go xs' ys'
         | _, _ => false
         end) xs ys
  | _, _ => false
  end.

(** [v in l] for a list [l] *)
Definition py_in (v : pyval) (l : list pyval) : bool :=
  existsb (fun item => py_eq item v) l.

Module Repr.

Definition hex_digit (n : N) : ascii :=
  ascii_of_N (if (n <? 10)%N then 48 + n else 87 + n).

Definition has_char (c : ascii) (s : string) : bool :=
  existsb (Ascii.eqb c) (list_ascii_of_string s).

(** The quote [repr] puts around a string: a double quote when the string
    has a single quote and no double quote, a single quote otherwise. *)
Definition dquote : ascii := ascii_of_N 34.

Definition quote_of (s : string) : ascii :=
  if has_char "'" s && negb (has_char dquote s) then dquote else "'"%char.

Definition escape_char (q c : ascii) : string :=
  let n := N_of_ascii c in
  if Ascii.eqb c q || Ascii.eqb c "\" then String "\" (String c EmptyString)
  else if (n =? 9)%N then "\t"
  else if (n =? 10)%N then "\n"
  else if (n =? 13)%N then "\r"
  else if ((n <? 32) || (n =? 127))%N then
    String "\" (String "x" (String (hex_digit (n / 16))
                               (String (hex_digit (n mod 16)) EmptyString)))
  else String c EmptyString.

Fixpoint escape (q : ascii) (s : string) : string :=
  match s with
  | EmptyString => EmptyString
  | String c s' => escape_char q c +:+ escape q s'
  end.

Definition repr_str (s : string) : string :=
  let q := quote_of s in
  String q (escape q s +:+ String q EmptyString).

End Repr.

(** [repr(v)] *)
Fixpoint py_repr (v : pyval) : string :=
  match v with
  | PyNone => "None"
  | PyBool true => "True"
  | PyBool false => "False"
  | PyInt n => pretty n
  | PyStr s => Repr.repr_str s
  | PyList items =>
      "[" +:+
      (fix go (l : list pyval) : string :=
         match l with
         | [] => EmptyString
         | [x] => py_repr x
         | x :: l' => py_repr x +:+ ", " +:+ go l'
         end) items
      +:+ "]"
  end.

(** [str(v)], which is what the [%s] conversion applies *)
Definition py_str (v : pyval) : string :=
  match v with
  | PyStr s => s
  | _ => py_repr v
  end.

Module IntParse.

Definition digit_of (c : ascii) : option N :=
  let n := N_of_ascii c in
  if ((48 <=? n) && (n <=? 57))%N then Some (n - 48)%N else None.

(** Decimal digits, where a single underscore may separate two digits. *)
Fixpoint digits (acc : N) (after_digit : bool) (s : string) : option N :=
  match s with
  | EmptyString => if after_digit then Some acc else None
  | String c s' =>
      match digit_of c with
      | Some d => digits (10 * acc + d)%N true s'
      | None =>
          if Ascii.eqb c "_" && after_digit then digits acc false s'
          else None
      end
  end.

(** [int(s)] for a string, in base 10: surrounding whitespace, an optional
    sign, then the digits. *)
Definition of_str (s : string) : option Z :=
  match Str.strip s with
  | String "+" r => Z.of_N <$> digits 0 false r
  | String "-" r => (fun n => - Z.of_N n) <$> digits 0 false r
  | r => Z.of_N <$> digits 0 false r
  end.

End IntParse.

(** [int(v)] *)
Definition py_int (v : pyval) : result Z :=
  match v with
  | PyBool b => Return (if b then 1 else 0)
  | PyInt n => Return n
  | PyStr s =>
      match IntParse.of_str s with
      | Some n => Return n
      | None => Raise ValueError
      end
  | PyNone | PyList _ => Raise TypeError
  end.

(** ** The document tree *)

(** An element of the parsed document: its qualified tag [{namespace}name],
    its attributes, its text ([None] when the element has none) and its
    children in document order. *)
#[warnings="-register-all"]
Inductive Element : Type :=
  mkElement {
    tag : string;
    attrib : gmap string string;
    text : option string;
    children : list Element
  }.

(** [Element.iter()]: the element and all its descendants, in document
    order. *)
Fixpoint iter (e : Element) : list Element :=
  e :: flat_map iter (children e).

Definition descendants (e : Element) : list Element :=
  flat_map iter (children e).

(** The path language of the tree library, for the one shape of path this
    module builds: [.//name] selects the descendants of the context element
    whose tag is [name], in document order.  The name is a namespace in
    braces and a local name, compared literally: the characters the path
    language reserves are not interpreted. *)
Definition findall (doc : Element) (path : string) : list Element :=
  match path with
  | String "." (String "/" (String "/" name)) =>
      filter (fun e => tag e = name) (descendants doc)
  | _ => []
  end.

Definition find (doc : Element) (path : string) : option Element :=
  head (findall doc path).

(** ** The module *)

Definition NS_XMLSchema_Instance : string :=
  "http://www.w3.org/2001/XMLSchema-instance".

Definition RET_SUCCESS : string := "0".
Definition RET_ERROR : string := "2".
Definition RET_CREATED : string := "4096".

(** Modelled from the spec: [constants.RebootRequired] is not part of the
    sources at hand.  Its three members are the values the spec gives for
    the reboot policy, and [all()] lists them. *)
Module RebootRequired.
Definition true : pyval := PyBool Datatypes.true.
Definition optional : pyval := PyStr "optional".
Definition false : pyval := PyBool Datatypes.false.
Definition all : list pyval := [true; optional; false].
End RebootRequired.

Definition REBOOT_REQUIRED : gmap string pyval :=
  {[ "yes" := RebootRequired.true;
     "no" := RebootRequired.false;
     "optional" := RebootRequired.optional ]}.

(** The result of [find_xml] is an element or [None] when [find_all] is
    false and a list of elements when it is true. *)
Definition find_xml (doc : Element) (item namespace : string)
    (find_all : bool) : if find_all then list Element else option Element :=
  let query := ".//{" +:+ namespace +:+ "}" +:+ item in
  match find_all as b return (if b then list Element else option Element) with
  | true => findall doc query
  | false => find doc query
  end.

Definition _is_attr_non_nil (elem : Element) : bool :=
  negb (bool_decide
          (attrib elem !! ("{" +:+ NS_XMLSchema_Instance +:+ "}nil") = Some "true")).

(** The expression [item.text.strip()]: reading [strip] on a text that is
    [None] is an attribute error. *)
Definition text_strip (item : Element) : result string :=
  match text item with
  | None => Raise (AttributeError "strip")
  | Some t => Return (Str.strip t)
  end.

(** The value returned is a string, or [None]. *)
Definition get_wsman_resource_attr (doc : Element)
    (resource_uri attr_name : string) (nullable allow_missing : bool)
    : result (option string) :=
  let item := find_xml doc attr_name resource_uri false in
  match item with
  | None =>
      if allow_missing then Return None
      else Raise (DRACMissingResponseField attr_name)
  | Some item =>
      if negb nullable then
        match text item with
        | None => Raise (DRACEmptyResponseField attr_name)
        | Some _ => Some <$> text_strip item
        end
      else
        if _is_attr_non_nil item then Some <$> text_strip item
        else Return None
  end.

(** The loop of the non-nullable branch: the first element without text
    raises. *)
Fixpoint check_texts (attr_name : string) (items : list Element) : result unit :=
  match items with
  | [] => Return tt
  | item :: rest =>
      match text item with
      | None => Raise (DRACEmptyResponseField attr_name)
      | Some _ => check_texts attr_name rest
      end
  end.

Definition get_all_wsman_resource_attrs (doc : Element)
    (resource_uri attr_name : string) (nullable : bool)
    : result (list string) :=
  let items := find_xml doc attr_name resource_uri true in
  if negb nullable then
    _ ← check_texts attr_name items;
    mapM text_strip items
  else
    mapM text_strip (filter (fun item => _is_attr_non_nil item = true) items).

(** The expression [elem.text.lower()] on the result of a [find_xml] that
    may be [None]. *)
Definition text_lower (elem : option Element) : result string :=
  match elem with
  | None => Raise (AttributeError "text")
  | Some e =>
      match text e with
      | None => Raise (AttributeError "lower")
      | Some t => Return (Str.lower t)
      end
  end.

Definition is_commit_required (doc : Element) (resource_uri : string)
    : result bool :=
  let commit_required := find_xml doc "SetResult" resource_uri false in
  t ← text_lower commit_required;
  mret (Str.contains "pendingvalue" t).

Definition is_reboot_required (doc : Element) (resource_uri : string)
    : result bool :=
  let reboot_required := find_xml doc "RebootRequired" resource_uri false in
  t ← text_lower reboot_required;
  mret (String.eqb t "yes").

Definition reboot_required (doc : Element) (resource_uri : string)
    : result pyval :=
  let reboot_required_value := find_xml doc "RebootRequired" resource_uri false in
  t ← text_lower reboot_required_value;
  match REBOOT_REQUIRED !! t with
  | Some v => Return v
  | None => Raise (KeyError t)
  end.

Definition is_None (v : pyval) : bool :=
  match v with
  | PyNone => true
  | _ => false
  end.

Definition invalid_reboot_required_msg (is_reboot_required_value : pyval)
    : string :=
  "is_reboot_required_value must be a member of the "
  +:+ "RebootRequired enumeration or None.  The passed value was "
  +:+ py_str is_reboot_required_value.

Definition build_return_dict (doc : Element) (resource_uri : string)
    (is_commit_required_value is_reboot_required_value
       commit_required_value : pyval)
    : result (gmap string pyval) :=
  if negb (is_None is_reboot_required_value)
     && negb (py_in is_reboot_required_value RebootRequired.all)
  then
    Raise (InvalidParameterValue
             (invalid_reboot_required_msg is_reboot_required_value))
  else
    let result : gmap string pyval := ∅ in
    is_commit_required_value ←
      (if is_None is_commit_required_value
       then PyBool <$> is_commit_required doc resource_uri
       else Return is_commit_required_value);
    let result := <["is_commit_required" := is_commit_required_value]> result in
    is_reboot_required_value ←
      (if is_None is_reboot_required_value
       then reboot_required doc resource_uri
       else Return is_reboot_required_value);
    let result := <["is_reboot_required" := is_reboot_required_value]> result in
    commit_required_value ←
      (if is_None commit_required_value
       then PyBool <$> is_reboot_required doc resource_uri
       else Return commit_required_value);
    let result := <["commit_required" := commit_required_value]> result in
    mret result.

(** The list [error_msgs] belongs to the caller and is appended to in place:
    the function takes its contents and returns, with [None], its contents
    after the call. *)
Definition validate_integer_value (value : pyval) (attr_name : string)
    (error_msgs : list string) : result (pyval * list string) :=
  if is_None value then
    Return (PyNone,
            (error_msgs ++ ["'" +:+ attr_name +:+ "' is not supplied"])%list)
  else
    match py_int value with
    | Return _ => Return (PyNone, error_msgs)
    | Raise ValueError =>
        Return (PyNone,
                (error_msgs
                   ++ ["'" +:+ attr_name +:+ "' is not an integer value"])%list)
    | Raise e => Raise e
    end.

(** ** Vocabulary of the properties *)

(** The qualified name of [item] in [namespace]. *)
Definition qname (namespace item : string) : string :=
  "{" +:+ namespace +:+ "}" +:+ item.

(** The elements of the field [(namespace, item)] of a document: its
    descendants with that qualified name, in document order. *)
Definition elements_named (doc : Element) (namespace item : string)
    : list Element :=
  filter (fun e => tag e = qname namespace item) (descendants doc).

(** The key of the nil marker among the attributes of an element. *)
Definition nil_key : string :=
  "{http://www.w3.org/2001/XMLSchema-instance}nil".

(** [m] is one of the members of [RebootRequired], for Python's [in]. *)
Definition reboot_required_member (v : pyval) : Prop :=
  exists m, m ∈ RebootRequired.all /\ py_eq m v = Datatypes.true.

(** ** Sample documents *)

Definition leaf (name : string) (t : option string) : Element :=
  mkElement name ∅ t [].

Definition nil_leaf (name flag : string) (t : option string) : Element :=
  mkElement name {[ nil_key := flag ]} t [].

Definition sample_uri : string := "urn:sample".

(** A response whose [SetResult] is [pendingValue] and whose
    [RebootRequired], one level further down, is [No]. *)
Definition doc_pending : Element :=
  mkElement "{urn:soap}Body" ∅ None
    [ leaf "{urn:sample}SetResult" (Some "pendingValue");
      mkElement "{urn:sample}Status" ∅ None
        [ leaf "{urn:sample}RebootRequired" (Some "No") ] ].

(** A response with a padded host name. *)
Definition doc_padded : Element :=
  mkElement "{urn:soap}Body" ∅ None
    [ leaf "{urn:sample}HostName" (Some "  v  ") ].

(** A response whose [HostName] has the empty string as its text. *)
Definition doc_empty_text : Element :=
  mkElement "{urn:soap}Body" ∅ None
    [ leaf "{urn:sample}HostName" (Some EmptyString) ].

(** A response whose [HostName] has no text and no nil marker. *)
Definition doc_no_text : Element :=
  mkElement "{urn:soap}Body" ∅ None
    [ leaf "{urn:sample}HostName" None ].

(** A response whose [HostName] is marked nil. *)
Definition doc_nil : Element :=
  mkElement "{urn:soap}Body" ∅ None
    [ nil_leaf "{urn:sample}HostName" "true" None ].

(** A response whose only field is a [RebootRequired] with the text [t]. *)
Definition doc_reboot (t : string) : Element :=
  mkElement "{urn:soap}Body" ∅ None
    [ leaf "{urn:sample}RebootRequired" (Some t) ].

(** Three addresses: the second is marked nil, the others have text. *)
Definition doc_addresses : Element :=
  mkElement "{urn:soap}Body" ∅ None
    [ leaf "{urn:sample}Address" (Some " 10.0.0.1 ");
      nil_leaf "{urn:sample}Address" "true" None;
      leaf "{urn:sample}Address" (Some "10.0.0.3") ].

(** A response whose only field is a [SetResult] with the text [t]. *)
Definition doc_set_result (t : string) : Element :=
  mkElement "{urn:soap}Body" ∅ None
    [ leaf "{urn:sample}SetResult" (Some t) ].

(** A response with a [SetResult] of [Success] and a [RebootRequired] with
    the text [t]. *)
Definition doc_reboot_set (t : string) : Element :=
  mkElement "{urn:soap}Body" ∅ None
    [ leaf "{urn:sample}SetResult" (Some "Success");
      leaf "{urn:sample}RebootRequired" (Some t) ].

(** Two addresses: the first is marked nil, the second has text. *)
Definition doc_nil_first : Element :=
  mkElement "{urn:soap}Body" ∅ None
    [ nil_leaf "{urn:sample}Address" "true" None;
      leaf "{urn:sample}Address" (Some "10.0.0.3") ].

(** Two host names, of which only the first has text. *)
Definition doc_two_hosts : Element :=
  mkElement "{urn:soap}Body" ∅ None
    [ leaf "{urn:sample}HostName" (Some " a ");
      leaf "{urn:sample}HostName" None ].

(** A document that is a single element carrying the requested name
    itself. *)
Definition doc_root_only : Element :=
  leaf "{urn:sample}HostName" (Some "v").

(** ** Measures *)



(** * Properties *)

(** ** Strings *)

(** Appending to a string that starts with known characters, one step at a
    time ([simpl] leaves [+:+] alone). *)
Lemma append_nil (b : string) : EmptyString +:+ b = b.
Proof. reflexivity. Qed.

Lemma append_cons (c : ascii) (a b : string) :
  String c a +:+ b = String c (a +:+ b).
Proof. reflexivity. Qed.


Section StrFacts.
Import Str.

Lemma startswith_app (n h : string) :
  startswith n h = true <-> exists b, h = n +:+ b.
Proof.
  revert h; induction n as [|c n IH]; intros h; simpl.
  - split; [intros _; by exists h | done].
  - destruct h as [|d h].
    + split; [done | by intros [b Hb]].
    + rewrite andb_true_iff, Ascii.eqb_eq, IH. split.
      * intros [-> [b ->]]. by exists b.
      * intros [b Hb]. rewrite append_cons in Hb.
        injection Hb as -> ->. eauto.
Qed.

(** [contains] is the substring test. *)
Lemma contains_spec (n h : string) :
  contains n h = true <-> exists a b, h = a +:+ n +:+ b.
Proof.
  induction h as [|d h IH]; simpl.
  - rewrite orb_false_r, startswith_app. split.
    + intros [b Hb]. by exists EmptyString, b.
    + intros [[|c a] [b Hb]]; [by exists b | by rewrite append_cons in Hb].
  - rewrite orb_true_iff, startswith_app, IH. split.
    + intros [[b Hb] | (a & b & Hab)].
      * by exists EmptyString, b.
      * exists (String d a), b. by rewrite append_cons, Hab.
    + intros ([|c a] & b & Hab).
      * left. by exists b.
      * right. exists a, b. rewrite append_cons in Hab. by injection Hab.
Qed.

Lemma all_space_nil : all_space EmptyString.
Proof. intros c []. Qed.

Lemma all_space_cons c s :
  isspace c = true -> all_space s -> all_space (String c s).
Proof. intros Hc Hs d [<- | Hd]; [done | by apply Hs]. Qed.

Lemma lstrip_split (s : string) :
  exists l, s = l +:+ lstrip s /\ all_space l.
Proof.
  induction s as [|c s (l & Hl & Hsp)]; simpl.
  - exists EmptyString. split; [done | apply all_space_nil].
  - destruct (isspace c) eqn:Hc.
    + exists (String c l). split; [| by apply all_space_cons].
      by rewrite append_cons, <- Hl.
    + exists EmptyString. split; [done | apply all_space_nil].
Qed.

Lemma rstrip_split (s : string) :
  exists r, s = rstrip s +:+ r /\ all_space r.
Proof.
  induction s as [|c s (r & Hr & Hsp)]; simpl.
  - exists EmptyString. split; [done | apply all_space_nil].
  - destruct (rstrip s) as [|d t] eqn:Ht.
    + rewrite append_nil in Hr. subst s. destruct (isspace c) eqn:Hc.
      * exists (String c r). split; [done | by apply all_space_cons].
      * by exists r.
    + exists r. split; [| done]. by rewrite append_cons, <- Hr.
Qed.

(** What [strip] removes is whitespace at both ends, and nothing else. *)
Lemma strip_split (s : string) :
  exists l r, s = l +:+ strip s +:+ r /\ all_space l /\ all_space r.
Proof.
  destruct (lstrip_split s) as (l & Hl & Hlsp).
  destruct (rstrip_split (lstrip s)) as (r & Hr & Hrsp).
  exists l, r. unfold strip. split; [congruence | done].
Qed.

Lemma lstrip_head c s t : lstrip s = String c t -> isspace c = false.
Proof.
  induction s as [|d s IH]; simpl; [done |].
  destruct (isspace d) eqn:Hd; [done | congruence].
Qed.

Lemma rstrip_head c s :
  isspace c = false -> exists t, rstrip (String c s) = String c t.
Proof. intros Hc. simpl. rewrite Hc. destruct (rstrip s); eauto. Qed.

(** The result of [strip] does not begin with whitespace. *)
Lemma strip_head c t s : strip s = String c t -> isspace c = false.
Proof.
  unfold strip. destruct (lstrip s) as [|d u] eqn:Hl; [done |].
  pose proof (lstrip_head _ _ _ Hl) as Hd.
  destruct (rstrip_head d u Hd) as [v ->]. congruence.
Qed.

Lemma rstrip_last c s : last_char (rstrip s) = Some c -> isspace c = false.
Proof.
  induction s as [|d s IH]; simpl; [done |].
  destruct (rstrip s) as [|e t] eqn:Ht.
  - destruct (isspace d) eqn:Hd; simpl; [done | congruence].
  - exact IH.
Qed.

(** The result of [strip] does not end with whitespace. *)
Lemma strip_last c s : last_char (strip s) = Some c -> isspace c = false.
Proof. apply rstrip_last. Qed.

End StrFacts.

(** ** Looking fields up *)

Lemma find_xml_all (doc : Element) (item namespace : string) :
  find_xml doc item namespace true = elements_named doc namespace item.
Proof. reflexivity. Qed.

Lemma find_xml_first (doc : Element) (item namespace : string) :
  find_xml doc item namespace false = head (elements_named doc namespace item).
Proof. reflexivity. Qed.

(** The element [find_xml] returns is a descendant with the requested
    qualified name, and every such descendant before it has another name. *)
Lemma find_xml_first_elem (doc : Element) (item namespace : string) (e : Element) :
  find_xml doc item namespace false = Some e ->
  e ∈ descendants doc /\ tag e = qname namespace item.
Proof.
  rewrite find_xml_first. unfold elements_named. intros H.
  apply head_Some_elem_of in H. by apply list_elem_of_filter in H as [? ?].
Qed.

Lemma find_xml_none (doc : Element) (item namespace : string) :
  find_xml doc item namespace false = None <->
  forall e, e ∈ descendants doc -> tag e <> qname namespace item.
Proof.
  rewrite find_xml_first, head_None. unfold elements_named. split.
  - intros H e He Ht.
    assert (e ∈ filter (fun e => tag e = qname namespace item) (descendants doc))
      as Hin by (by apply list_elem_of_filter).
    rewrite H in Hin. by apply not_elem_of_nil in Hin.
  - intros H.
    destruct (filter _ (descendants doc)) as [|e l] eqn:Hf; [done |].
    assert (e ∈ e :: l) as Hin by left.
    rewrite <- Hf in Hin. apply list_elem_of_filter in Hin as [Ht He].
    by destruct (H e He).
Qed.

(** ** The nil marker *)

(** C8.  An element is non-nil unless it carries the attribute [nil] of the
    XMLSchema-instance namespace with the value [true], spelled exactly so:
    without the attribute, or with any other value, it is non-nil. *)
Theorem is_attr_non_nil_spec (elem : Element) :
  (_is_attr_non_nil elem = false <->
     attrib elem !! "{http://www.w3.org/2001/XMLSchema-instance}nil" = Some "true")
  /\ (attrib elem !! "{http://www.w3.org/2001/XMLSchema-instance}nil" = None ->
      _is_attr_non_nil elem = true)
  /\ (forall v, attrib elem !! "{http://www.w3.org/2001/XMLSchema-instance}nil" = Some v ->
      v <> "true" -> _is_attr_non_nil elem = true).
Proof.
  unfold _is_attr_non_nil.
  change ("{" +:+ NS_XMLSchema_Instance +:+ "}nil") with nil_key.
  change "{http://www.w3.org/2001/XMLSchema-instance}nil" with nil_key.
  repeat split.
  - intros H. apply negb_false_iff in H. by apply bool_decide_eq_true in H.
  - intros H. apply negb_false_iff. by apply bool_decide_eq_true.
  - intros H. apply negb_true_iff, bool_decide_eq_false. by rewrite H.
  - intros v H Hv. apply negb_true_iff, bool_decide_eq_false. rewrite H.
    congruence.
Qed.

Lemma is_attr_non_nil_witness :
  _is_attr_non_nil (nil_leaf "{urn:sample}HostName" "True" None) = true
  /\ _is_attr_non_nil (nil_leaf "{urn:sample}HostName" "false" None) = true
  /\ _is_attr_non_nil (leaf "{urn:sample}HostName" None) = true
  /\ _is_attr_non_nil (nil_leaf "{urn:sample}HostName" "true" None) = false.
Proof.
  split; [| split; [| split]].
  - apply (proj2 (proj2 (is_attr_non_nil_spec _)) "True"); [reflexivity | discriminate].
  - apply (proj2 (proj2 (is_attr_non_nil_spec _)) "false"); [reflexivity | discriminate].
  - apply (proj1 (proj2 (is_attr_non_nil_spec _))). reflexivity.
  - apply (proj1 (is_attr_non_nil_spec _)). reflexivity.
Defined.

(** ** One field: [get_wsman_resource_attr] *)

(** C3.  On a document that lacks the field, whatever [nullable] is, the
    call returns [None] when [allow_missing] is true and raises
    [DRACMissingResponseField] with the attribute name when it is false. *)
Theorem get_wsman_resource_attr_missing
    (doc : Element) (resource_uri attr_name : string) (nullable : bool) :
  elements_named doc resource_uri attr_name = [] ->
  get_wsman_resource_attr doc resource_uri attr_name nullable true
    = Return None
  /\ get_wsman_resource_attr doc resource_uri attr_name nullable false
    = Raise (DRACMissingResponseField attr_name).
Proof.
  intros H. unfold get_wsman_resource_attr.
  by rewrite find_xml_first, H.
Qed.

Lemma get_wsman_resource_attr_missing_witness :
  (get_wsman_resource_attr doc_pending sample_uri "HostName" false true
     = Return None
   /\ get_wsman_resource_attr doc_pending sample_uri "HostName" false false
     = Raise (DRACMissingResponseField "HostName"))
  /\ (get_wsman_resource_attr doc_pending sample_uri "HostName" true true
     = Return None
   /\ get_wsman_resource_attr doc_pending sample_uri "HostName" true false
     = Raise (DRACMissingResponseField "HostName")).
Proof.
  split.
  - apply (get_wsman_resource_attr_missing doc_pending sample_uri "HostName" false).
    reflexivity.
  - apply (get_wsman_resource_attr_missing doc_pending sample_uri "HostName" true).
    reflexivity.
Defined.

(** C4, as the code has it.  When the field's first element is present and
    [nullable] is false, the call raises [DRACEmptyResponseField] exactly
    when the element has no text ([None]); when it has text, the empty
    string included, it returns that text with the surrounding whitespace
    removed, so a text of two spaces, [v] and two spaces gives [v]. *)
Theorem get_wsman_resource_attr_not_nullable
    (doc : Element) (resource_uri attr_name : string) (allow_missing : bool)
    (item : Element) :
  head (elements_named doc resource_uri attr_name) = Some item ->
  (text item = None ->
     get_wsman_resource_attr doc resource_uri attr_name false allow_missing
       = Raise (DRACEmptyResponseField attr_name))
  /\ (forall t, text item = Some t ->
     get_wsman_resource_attr doc resource_uri attr_name false allow_missing
       = Return (Some (Str.strip t)))
  /\ (text item = Some "  v  " ->
     get_wsman_resource_attr doc resource_uri attr_name false allow_missing
       = Return (Some "v")).
Proof.
  intros H. unfold get_wsman_resource_attr, text_strip.
  rewrite find_xml_first, H. simpl.
  split; [| split].
  - by intros ->.
  - by intros t ->.
  - by intros ->.
Qed.

Lemma get_wsman_resource_attr_not_nullable_witness :
  get_wsman_resource_attr doc_padded sample_uri "HostName" false false
    = Return (Some "v")
  /\ get_wsman_resource_attr doc_no_text sample_uri "HostName" false false
    = Raise (DRACEmptyResponseField "HostName").
Proof.
  split.
  - apply (proj2 (proj2 (get_wsman_resource_attr_not_nullable
                           doc_padded sample_uri "HostName" false
                           (leaf "{urn:sample}HostName" (Some "  v  "))
                           eq_refl))).
    reflexivity.
  - apply (proj1 (get_wsman_resource_attr_not_nullable
                    doc_no_text sample_uri "HostName" false
                    (leaf "{urn:sample}HostName" None) eq_refl)).
    reflexivity.
Defined.

(** C4 as stated fails where the element's text is the empty string: the
    element is present, its text is empty, and the call returns the empty
    string instead of raising [DRACEmptyResponseField]. *)
Lemma get_wsman_resource_attr_empty_text_counterexample :
  head (elements_named doc_empty_text sample_uri "HostName")
    = Some (leaf "{urn:sample}HostName" (Some EmptyString))
  /\ get_wsman_resource_attr doc_empty_text sample_uri "HostName" false false
    = Return (Some EmptyString)
  /\ get_wsman_resource_attr doc_empty_text sample_uri "HostName" false false
    <> Raise (DRACEmptyResponseField "HostName").
Proof. split; [reflexivity | split; [reflexivity | discriminate]]. Qed.

(** C7, as the code has it.  When the field's first element is present and
    [nullable] is true, the call returns [None] when the element is marked
    nil, and the element's text with the surrounding whitespace removed when
    the element is non-nil and has text. *)
Theorem get_wsman_resource_attr_nullable
    (doc : Element) (resource_uri attr_name : string) (allow_missing : bool)
    (item : Element) :
  head (elements_named doc resource_uri attr_name) = Some item ->
  (_is_attr_non_nil item = false ->
     get_wsman_resource_attr doc resource_uri attr_name true allow_missing
       = Return None)
  /\ (forall t, _is_attr_non_nil item = true -> text item = Some t ->
     get_wsman_resource_attr doc resource_uri attr_name true allow_missing
       = Return (Some (Str.strip t))).
Proof.
  intros H. unfold get_wsman_resource_attr, text_strip.
  rewrite find_xml_first, H. simpl. split.
  - by intros ->.
  - by intros t -> ->.
Qed.

Lemma get_wsman_resource_attr_nullable_witness :
  get_wsman_resource_attr doc_nil sample_uri "HostName" true false
    = Return None
  /\ get_wsman_resource_attr doc_padded sample_uri "HostName" true false
    = Return (Some "v").
Proof.
  split.
  - apply (proj1 (get_wsman_resource_attr_nullable
                    doc_nil sample_uri "HostName" false
                    (nil_leaf "{urn:sample}HostName" "true" None) eq_refl)).
    reflexivity.
  - apply (proj2 (get_wsman_resource_attr_nullable
                    doc_padded sample_uri "HostName" false
                    (leaf "{urn:sample}HostName" (Some "  v  ")) eq_refl)
             "  v  "); reflexivity.
Defined.

(** C7 as stated fails where the element is non-nil and has no text: the
    call does not return, it raises the attribute error of reading [strip]
    on [None]. *)
Lemma get_wsman_resource_attr_nullable_counterexample :
  head (elements_named doc_no_text sample_uri "HostName")
    = Some (leaf "{urn:sample}HostName" None)
  /\ _is_attr_non_nil (leaf "{urn:sample}HostName" None) = true
  /\ get_wsman_resource_attr doc_no_text sample_uri "HostName" true false
    = Raise (AttributeError "strip")
  /\ (forall v, get_wsman_resource_attr doc_no_text sample_uri "HostName" true false
                <> Return v).
Proof.
  split; [reflexivity | split; [reflexivity | split; [reflexivity | discriminate]]].
Qed.

(** C10.  With [nullable] true, an element that is present, not marked nil
    and without text makes the call raise the attribute error of reading
    [strip] on [None]: it returns nothing and does not raise
    [DRACEmptyResponseField], which no call with [nullable] true ever
    raises. *)
Theorem get_wsman_resource_attr_nullable_no_text
    (doc : Element) (resource_uri attr_name : string) (allow_missing : bool) :
  (forall item,
     head (elements_named doc resource_uri attr_name) = Some item ->
     _is_attr_non_nil item = true -> text item = None ->
     get_wsman_resource_attr doc resource_uri attr_name true allow_missing
       = Raise (AttributeError "strip"))
  /\ (forall attr,
     get_wsman_resource_attr doc resource_uri attr_name true allow_missing
       <> Raise (DRACEmptyResponseField attr)).
Proof.
  unfold get_wsman_resource_attr, text_strip. rewrite find_xml_first. split.
  - by intros item -> -> ->.
  - intros attr.
    destruct (head _) as [item|]; simpl.
    + destruct (_is_attr_non_nil item); [| done].
      by destruct (text item).
    + by destruct allow_missing.
Qed.

Lemma get_wsman_resource_attr_nullable_no_text_witness :
  get_wsman_resource_attr doc_no_text sample_uri "HostName" true false
    = Raise (AttributeError "strip").
Proof.
  apply (proj1 (get_wsman_resource_attr_nullable_no_text
                  doc_no_text sample_uri "HostName" false)
           (leaf "{urn:sample}HostName" None)); reflexivity.
Defined.

(** ** All elements of a field: [get_all_wsman_resource_attrs] *)

Lemma check_texts_ok (attr_name : string) (items : list Element) :
  Forall (fun e => is_Some (text e)) items ->
  check_texts attr_name items = Return tt.
Proof.
  induction 1 as [|e items [t Ht] _ IH]; simpl; [done |].
  by rewrite Ht.
Qed.

Lemma check_texts_fail (attr_name : string) (items : list Element) :
  Exists (fun e => text e = None) items ->
  check_texts attr_name items = Raise (DRACEmptyResponseField attr_name).
Proof.
  induction 1 as [e items He | e items _ IH]; simpl.
  - by rewrite He.
  - by destruct (text e).
Qed.

Lemma text_strip_Some (e : Element) (t : string) :
  text e = Some t -> text_strip e = Return (Str.strip t).
Proof. unfold text_strip. by intros ->. Qed.

Lemma text_strip_None (e : Element) :
  text e = None -> text_strip e = Raise (AttributeError "strip").
Proof. unfold text_strip. by intros ->. Qed.

Lemma mapM_text_strip (items : list Element) (ts : list string) :
  Forall2 (fun e t => text e = Some t) items ts ->
  mapM text_strip items = Return (Str.strip <$> ts).
Proof.
  induction 1 as [|e t items ts Ht _ IH]; simpl; [done |].
  by rewrite (text_strip_Some _ _ Ht), IH.
Qed.

(** A list from which an element without text is kept is never returned. *)
Lemma mapM_text_strip_fail (items : list Element) :
  Exists (fun e => text e = None) items ->
  mapM text_strip items = Raise (AttributeError "strip").
Proof.
  induction 1 as [e items He | e items _ IH]; simpl.
  - by rewrite (text_strip_None _ He).
  - destruct (text e) as [t|] eqn:Ht.
    + by rewrite (text_strip_Some _ _ Ht), IH.
    + by rewrite (text_strip_None _ Ht).
Qed.

Lemma Forall2_text_is_Some (items : list Element) (ts : list string) :
  Forall2 (fun e t => text e = Some t) items ts ->
  Forall (fun e => is_Some (text e)) items.
Proof. induction 1; constructor; eauto. Qed.

(** C6, as the code has it.  With [nullable] false the call raises
    [DRACEmptyResponseField] when some element of the field has no text
    ([None]), and otherwise returns the text of every element of the field,
    whitespace removed at both ends, in document order.  With [nullable]
    true the elements marked nil are left out and, when each of the others
    has text, the call returns their texts, whitespace removed, in document
    order; when none is left the result is the empty list. *)
Theorem get_all_wsman_resource_attrs_spec
    (doc : Element) (resource_uri attr_name : string) :
  (Exists (fun e => text e = None) (elements_named doc resource_uri attr_name) ->
     get_all_wsman_resource_attrs doc resource_uri attr_name false
       = Raise (DRACEmptyResponseField attr_name))
  /\ (forall ts,
     Forall2 (fun e t => text e = Some t)
       (elements_named doc resource_uri attr_name) ts ->
     get_all_wsman_resource_attrs doc resource_uri attr_name false
       = Return (Str.strip <$> ts))
  /\ (forall ts,
     Forall2 (fun e t => text e = Some t)
       (filter (fun e => _is_attr_non_nil e = true)
          (elements_named doc resource_uri attr_name)) ts ->
     get_all_wsman_resource_attrs doc resource_uri attr_name true
       = Return (Str.strip <$> ts))
  /\ (Forall (fun e => _is_attr_non_nil e = false)
       (elements_named doc resource_uri attr_name) ->
     get_all_wsman_resource_attrs doc resource_uri attr_name true = Return []).
Proof.
  unfold get_all_wsman_resource_attrs. rewrite find_xml_all. simpl.
  split; [| split; [| split]].
  - intros H. by rewrite (check_texts_fail _ _ H).
  - intros ts H.
    rewrite (check_texts_ok _ _ (Forall2_text_is_Some _ _ H)). simpl.
    by apply mapM_text_strip.
  - intros ts H. by apply mapM_text_strip.
  - intros H.
    assert (filter (fun e => _is_attr_non_nil e = true)
              (elements_named doc resource_uri attr_name) = []) as ->; [| done].
    induction H as [|e l He _ IH]; [done |].
    rewrite filter_cons_False; [done | by rewrite He].
Qed.

Lemma get_all_wsman_resource_attrs_witness :
  get_all_wsman_resource_attrs doc_addresses sample_uri "Address" false
    = Raise (DRACEmptyResponseField "Address")
  /\ get_all_wsman_resource_attrs doc_pending sample_uri "RebootRequired" false
    = Return ["No"]
  /\ get_all_wsman_resource_attrs doc_addresses sample_uri "Address" true
    = Return ["10.0.0.1"; "10.0.0.3"]
  /\ get_all_wsman_resource_attrs doc_nil sample_uri "HostName" true
    = Return [].
Proof.
  split; [| split; [| split]].
  - apply (proj1 (get_all_wsman_resource_attrs_spec
                    doc_addresses sample_uri "Address")).
    apply Exists_cons_tl, Exists_cons_hd. reflexivity.
  - apply (proj1 (proj2 (get_all_wsman_resource_attrs_spec
                           doc_pending sample_uri "RebootRequired")) ["No"]).
    repeat constructor.
  - apply (proj1 (proj2 (proj2 (get_all_wsman_resource_attrs_spec
                                  doc_addresses sample_uri "Address")))
             [" 10.0.0.1 "; "10.0.0.3"]).
    repeat constructor.
  - apply (proj2 (proj2 (proj2 (get_all_wsman_resource_attrs_spec
                                  doc_nil sample_uri "HostName")))).
    repeat constructor.
Defined.

(** C6 as stated fails in both branches.  With [nullable] true, an element
    that is not marked nil and has no text is not left out and no list is
    returned: the call raises the attribute error of reading [strip] on
    [None].  With [nullable] false, an element whose text is the empty
    string does not raise [DRACEmptyResponseField]: its text is returned. *)
Lemma get_all_wsman_resource_attrs_counterexample :
  (elements_named doc_no_text sample_uri "HostName"
     = [leaf "{urn:sample}HostName" None]
   /\ _is_attr_non_nil (leaf "{urn:sample}HostName" None) = true
   /\ get_all_wsman_resource_attrs doc_no_text sample_uri "HostName" true
     = Raise (AttributeError "strip"))
  /\ (elements_named doc_empty_text sample_uri "HostName"
     = [leaf "{urn:sample}HostName" (Some EmptyString)]
   /\ get_all_wsman_resource_attrs doc_empty_text sample_uri "HostName" false
     = Return [EmptyString]).
Proof. repeat split. Qed.

(** ** The readers of [SetResult] and [RebootRequired] *)

Lemma text_lower_Some (o : option Element) (e : Element) (t : string) :
  o = Some e -> text e = Some t -> text_lower o = Return (Str.lower t).
Proof. unfold text_lower. by intros -> ->. Qed.

Lemma text_lower_Return (o : option Element) (s : string) :
  text_lower o = Return s ->
  exists e t, o = Some e /\ text e = Some t /\ s = Str.lower t.
Proof.
  unfold text_lower. destruct o as [e|]; [| done].
  destruct (text e) as [t|] eqn:Ht; [| done].
  intros [= <-]. eauto.
Qed.

(** [is_commit_required]: the text of [SetResult], in lower case, has
    [pendingvalue] as a substring. *)
Lemma is_commit_required_spec (doc : Element) (uri : string) (e : Element) (t : string) :
  head (elements_named doc uri "SetResult") = Some e -> text e = Some t ->
  is_commit_required doc uri
    = Return (Str.contains "pendingvalue" (Str.lower t)).
Proof.
  intros He Ht. unfold is_commit_required.
  by rewrite (text_lower_Some _ e t (eq_trans (find_xml_first _ _ _) He) Ht).
Qed.

(** [is_reboot_required]: the text of [RebootRequired], in lower case, is
    [yes]. *)
Lemma is_reboot_required_spec (doc : Element) (uri : string) (e : Element) (t : string) :
  head (elements_named doc uri "RebootRequired") = Some e -> text e = Some t ->
  is_reboot_required doc uri = Return (bool_decide (Str.lower t = "yes")).
Proof.
  intros He Ht. unfold is_reboot_required.
  rewrite (text_lower_Some _ e t (eq_trans (find_xml_first _ _ _) He) Ht).
  simpl. f_equal. unfold mret, result_ret. f_equal.
  destruct (String.eqb_spec (Str.lower t) "yes") as [Heq|Hne].
  - by rewrite bool_decide_eq_true_2.
  - by rewrite bool_decide_eq_false_2.
Qed.

Lemma REBOOT_REQUIRED_other (k : string) :
  k <> "yes" -> k <> "no" -> k <> "optional" -> REBOOT_REQUIRED !! k = None.
Proof.
  intros H1 H2 H3. unfold REBOOT_REQUIRED.
  rewrite !lookup_insert_ne by done. by rewrite lookup_singleton_ne.
Qed.

(** [reboot_required]: the text of [RebootRequired], in lower case, is the
    key looked up in [REBOOT_REQUIRED]. *)
Lemma reboot_required_spec (doc : Element) (uri : string) (e : Element) (t : string) :
  head (elements_named doc uri "RebootRequired") = Some e -> text e = Some t ->
  reboot_required doc uri
    = match REBOOT_REQUIRED !! Str.lower t with
      | Some v => Return v
      | None => Raise (KeyError (Str.lower t))
      end.
Proof.
  intros He Ht. unfold reboot_required.
  by rewrite (text_lower_Some _ e t (eq_trans (find_xml_first _ _ _) He) Ht).
Qed.

(** C9.  When [RebootRequired] is present with text, [reboot_required] looks
    the text up, in lower case, in the table [yes] to true, [no] to false,
    [optional] to [optional]; any other text is a [KeyError] and nothing is
    returned. *)
Theorem reboot_required_table
    (doc : Element) (resource_uri : string) (item : Element) (t : string) :
  head (elements_named doc resource_uri "RebootRequired") = Some item ->
  text item = Some t ->
  (Str.lower t = "yes" ->
     reboot_required doc resource_uri = Return (PyBool true))
  /\ (Str.lower t = "no" ->
     reboot_required doc resource_uri = Return (PyBool false))
  /\ (Str.lower t = "optional" ->
     reboot_required doc resource_uri = Return (PyStr "optional"))
  /\ (Str.lower t <> "yes" -> Str.lower t <> "no" ->
      Str.lower t <> "optional" ->
     reboot_required doc resource_uri = Raise (KeyError (Str.lower t))).
Proof.
  intros He Ht. rewrite (reboot_required_spec _ _ _ _ He Ht).
  split; [| split; [| split]].
  - by intros ->.
  - by intros ->.
  - by intros ->.
  - intros H1 H2 H3. by rewrite REBOOT_REQUIRED_other.
Qed.

Lemma reboot_required_table_witness :
  reboot_required (doc_reboot "YeS") sample_uri = Return (PyBool true)
  /\ reboot_required (doc_reboot "no") sample_uri = Return (PyBool false)
  /\ reboot_required (doc_reboot "Optional") sample_uri
     = Return (PyStr "optional")
  /\ reboot_required (doc_reboot "Maybe") sample_uri
     = Raise (KeyError "maybe").
Proof.
  split; [| split; [| split]].
  - apply (proj1 (reboot_required_table (doc_reboot "YeS") sample_uri
                    (leaf "{urn:sample}RebootRequired" (Some "YeS")) "YeS"
                    eq_refl eq_refl)).
    reflexivity.
  - apply (proj1 (proj2 (reboot_required_table (doc_reboot "no") sample_uri
                    (leaf "{urn:sample}RebootRequired" (Some "no")) "no"
                    eq_refl eq_refl))).
    reflexivity.
  - apply (proj1 (proj2 (proj2 (reboot_required_table
                    (doc_reboot "Optional") sample_uri
                    (leaf "{urn:sample}RebootRequired" (Some "Optional"))
                    "Optional" eq_refl eq_refl)))).
    reflexivity.
  - apply (proj2 (proj2 (proj2 (reboot_required_table
                    (doc_reboot "Maybe") sample_uri
                    (leaf "{urn:sample}RebootRequired" (Some "Maybe"))
                    "Maybe" eq_refl eq_refl)))); discriminate.
Defined.

(** ** The result dictionary: [build_return_dict] *)

Lemma is_None_true (v : pyval) : is_None v = true <-> v = PyNone.
Proof. by destruct v. Qed.

Lemma is_None_false (v : pyval) : is_None v = false <-> v <> PyNone.
Proof. by destruct v. Qed.

Lemma py_in_member (v : pyval) :
  py_in v RebootRequired.all = true <-> reboot_required_member v.
Proof.
  unfold py_in, reboot_required_member. rewrite existsb_exists.
  split; intros (m & Hm & Heq); exists m; split; try done;
    by apply list_elem_of_In.
Qed.

Lemma py_eq_bool_l (b : bool) (v : pyval) :
  py_eq (PyBool b) v = true <-> v = PyBool b \/ v = PyInt (if b then 1 else 0).
Proof.
  destruct v as [|b'|n|s|l]; simpl; split; try done;
    try (by intros [? | ?]).
  - intros H. left. f_equal. symmetry. by apply Bool.eqb_prop.
  - intros [[= ->] | [=]]. by destruct b.
  - intros H. apply Z.eqb_eq in H. right. by f_equal.
  - intros [[=] | [= ->]]. by apply Z.eqb_eq.
Qed.

Lemma py_eq_str_l (s : string) (v : pyval) :
  py_eq (PyStr s) v = true <-> v = PyStr s.
Proof.
  destruct v as [|b'|n|s'|l]; simpl; split; try done.
  - intros H. apply String.eqb_eq in H. by subst.
  - intros [= ->]. by apply String.eqb_eq.
Qed.

(** The members of [RebootRequired] under Python's equality: the two
    booleans, the string [optional], and the integers 1 and 0, which are
    equal to [True] and [False]. *)
Lemma reboot_required_member_iff (v : pyval) :
  reboot_required_member v <->
  v = PyBool true \/ v = PyBool false \/ v = PyStr "optional"
  \/ v = PyInt 1 \/ v = PyInt 0.
Proof.
  rewrite <- py_in_member.
  unfold py_in, RebootRequired.all, existsb,
    RebootRequired.true, RebootRequired.false, RebootRequired.optional.
  rewrite orb_false_r, !orb_true_iff, !py_eq_bool_l, py_eq_str_l.
  tauto.
Qed.

Lemma text_lower_not_invalid (o : option Element) (reason : string) :
  text_lower o <> Raise (InvalidParameterValue reason).
Proof.
  unfold text_lower. destruct o as [e|]; [| done]. by destruct (text e).
Qed.

Lemma readers_not_invalid (doc : Element) (uri reason : string) :
  is_commit_required doc uri <> Raise (InvalidParameterValue reason)
  /\ reboot_required doc uri <> Raise (InvalidParameterValue reason)
  /\ is_reboot_required doc uri <> Raise (InvalidParameterValue reason).
Proof.
  unfold is_commit_required, reboot_required, is_reboot_required.
  split; [| split].
  - pose proof (text_lower_not_invalid (find_xml doc "SetResult" uri false) reason) as H.
    destruct (text_lower _) as [s|e]; [discriminate |].
    simpl. intros [= ->]. by apply H.
  - pose proof (text_lower_not_invalid (find_xml doc "RebootRequired" uri false) reason) as H.
    destruct (text_lower _) as [s|e]; simpl.
    + destruct (REBOOT_REQUIRED !! s); discriminate.
    + intros [= ->]. by apply H.
  - pose proof (text_lower_not_invalid (find_xml doc "RebootRequired" uri false) reason) as H.
    destruct (text_lower _) as [s|e]; [discriminate |].
    simpl. intros [= ->]. by apply H.
Qed.

(** C1.  Without overrides, [build_return_dict] returns the dictionary
    whose [is_commit_required] is the result of [is_commit_required], whose
    [is_reboot_required] is the result of [reboot_required] and whose
    [commit_required] is the result of [is_reboot_required], the three being
    read in this order; when one of them raises, so does the call, and it
    returns nothing else.  These are: whether the text of [SetResult], in
    lower case, contains [pendingvalue]; the entry of the reboot table for
    the text of [RebootRequired] in lower case; and whether that text, in
    lower case, is [yes].  On a document whose [SetResult] is [pendingValue] and
    whose [RebootRequired] is [No] these are true, false and false. *)
Theorem build_return_dict_no_overrides (doc : Element) (resource_uri : string) :
  build_return_dict doc resource_uri PyNone PyNone PyNone
    = (c ← is_commit_required doc resource_uri;
       r ← reboot_required doc resource_uri;
       l ← is_reboot_required doc resource_uri;
       mret {[ "is_commit_required" := PyBool c;
               "is_reboot_required" := r;
               "commit_required" := PyBool l ]})
  /\ (forall c r l,
     is_commit_required doc resource_uri = Return c ->
     reboot_required doc resource_uri = Return r ->
     is_reboot_required doc resource_uri = Return l ->
     build_return_dict doc resource_uri PyNone PyNone PyNone
       = Return {[ "is_commit_required" := PyBool c;
                   "is_reboot_required" := r;
                   "commit_required" := PyBool l ]})
  /\ (forall d,
     build_return_dict doc resource_uri PyNone PyNone PyNone = Return d ->
     exists c r l,
       is_commit_required doc resource_uri = Return c
       /\ reboot_required doc resource_uri = Return r
       /\ is_reboot_required doc resource_uri = Return l
       /\ d = {[ "is_commit_required" := PyBool c;
                 "is_reboot_required" := r;
                 "commit_required" := PyBool l ]})
  /\ (forall set_result t1 reboot t2 policy,
     head (elements_named doc resource_uri "SetResult") = Some set_result ->
     text set_result = Some t1 ->
     head (elements_named doc resource_uri "RebootRequired") = Some reboot ->
     text reboot = Some t2 ->
     REBOOT_REQUIRED !! Str.lower t2 = Some policy ->
     build_return_dict doc resource_uri PyNone PyNone PyNone
       = Return {[ "is_commit_required" :=
                     PyBool (Str.contains "pendingvalue" (Str.lower t1));
                   "is_reboot_required" := policy;
                   "commit_required" :=
                     PyBool (bool_decide (Str.lower t2 = "yes")) ]})
  /\ (forall set_result reboot,
     head (elements_named doc resource_uri "SetResult") = Some set_result ->
     text set_result = Some "pendingValue" ->
     head (elements_named doc resource_uri "RebootRequired") = Some reboot ->
     text reboot = Some "No" ->
     build_return_dict doc resource_uri PyNone PyNone PyNone
       = Return {[ "is_commit_required" := PyBool true;
                   "is_reboot_required" := PyBool false;
                   "commit_required" := PyBool false ]}).
Proof.
  assert (forall c r l,
     is_commit_required doc resource_uri = Return c ->
     reboot_required doc resource_uri = Return r ->
     is_reboot_required doc resource_uri = Return l ->
     build_return_dict doc resource_uri PyNone PyNone PyNone
       = Return {[ "is_commit_required" := PyBool c;
                   "is_reboot_required" := r;
                   "commit_required" := PyBool l ]}) as Hreturn.
  { intros c r l Hc Hr Hl. unfold build_return_dict. simpl.
    rewrite Hc, Hr, Hl. reflexivity. }
  split; [| split; [exact Hreturn | split; [| split]]].
  - unfold build_return_dict. simpl.
    destruct (is_commit_required doc resource_uri) as [c|e]; [| done].
    destruct (reboot_required doc resource_uri) as [r|e]; [| done].
    by destruct (is_reboot_required doc resource_uri) as [l|e].
  - intros d Hd.
    destruct (is_commit_required doc resource_uri) as [c|e] eqn:Hc;
      [| by unfold build_return_dict in Hd; simpl in Hd; rewrite Hc in Hd].
    destruct (reboot_required doc resource_uri) as [r|e] eqn:Hr;
      [| by unfold build_return_dict in Hd; simpl in Hd; rewrite Hc, Hr in Hd].
    destruct (is_reboot_required doc resource_uri) as [l|e] eqn:Hl;
      [| by unfold build_return_dict in Hd; simpl in Hd;
            rewrite Hc, Hr, Hl in Hd].
    exists c, r, l. repeat split.
    rewrite (Hreturn c r l eq_refl eq_refl eq_refl) in Hd. congruence.
  - intros set_result t1 reboot t2 policy Hs Hst Hb Hbt Hp.
    apply Hreturn.
    + by rewrite (is_commit_required_spec _ _ _ _ Hs Hst).
    + by rewrite (reboot_required_spec _ _ _ _ Hb Hbt), Hp.
    + by rewrite (is_reboot_required_spec _ _ _ _ Hb Hbt).
  - intros set_result reboot Hs Hst Hb Hbt.
    apply (Hreturn true (PyBool false) false).
    + by rewrite (is_commit_required_spec _ _ _ _ Hs Hst).
    + by rewrite (reboot_required_spec _ _ _ _ Hb Hbt).
    + by rewrite (is_reboot_required_spec _ _ _ _ Hb Hbt).
Qed.

Lemma build_return_dict_no_overrides_witness :
  build_return_dict doc_pending sample_uri PyNone PyNone PyNone
    = Return {[ "is_commit_required" := PyBool true;
                "is_reboot_required" := PyBool false;
                "commit_required" := PyBool false ]}.
Proof.
  apply (proj2 (proj2 (proj2 (proj2
                 (build_return_dict_no_overrides doc_pending sample_uri))))
           (leaf "{urn:sample}SetResult" (Some "pendingValue"))
           (leaf "{urn:sample}RebootRequired" (Some "No")));
    reflexivity.
Defined.

(** C2.  [build_return_dict] raises [InvalidParameterValue] exactly when
    the override of [is_reboot_required] is not [None] and is not a member
    of [RebootRequired]; it then raises whatever the document and the other
    overrides are, so nothing is read from the document and no dictionary is
    returned.  An override that is a member never raises this error. *)
Theorem build_return_dict_invalid_override
    (doc : Element) (resource_uri : string)
    (is_commit_required_value is_reboot_required_value
       commit_required_value : pyval) :
  ((exists reason,
      build_return_dict doc resource_uri is_commit_required_value
        is_reboot_required_value commit_required_value
        = Raise (InvalidParameterValue reason))
   <-> is_reboot_required_value <> PyNone
       /\ ~ reboot_required_member is_reboot_required_value)
  /\ (is_reboot_required_value <> PyNone ->
      ~ reboot_required_member is_reboot_required_value ->
      forall doc' resource_uri' is_commit_required_value' commit_required_value',
        build_return_dict doc' resource_uri' is_commit_required_value'
          is_reboot_required_value commit_required_value'
          = Raise (InvalidParameterValue
                     (invalid_reboot_required_msg is_reboot_required_value))).
Proof.
  assert (is_reboot_required_value <> PyNone ->
      ~ reboot_required_member is_reboot_required_value ->
      forall doc' resource_uri' is_commit_required_value' commit_required_value',
        build_return_dict doc' resource_uri' is_commit_required_value'
          is_reboot_required_value commit_required_value'
          = Raise (InvalidParameterValue
                     (invalid_reboot_required_msg is_reboot_required_value)))
    as Hraise.
  { intros Hnone Hmem doc' uri' c' l'. unfold build_return_dict.
    rewrite <- py_in_member in Hmem. apply not_true_is_false in Hmem.
    rewrite Hmem.
    by destruct is_reboot_required_value. }
  split; [split | exact Hraise].
  - intros [reason Hr].
    destruct (is_None is_reboot_required_value) eqn:Hnone;
      [apply is_None_true in Hnone as -> | apply is_None_false in Hnone].
    + exfalso. revert Hr. unfold build_return_dict. simpl.
      destruct (readers_not_invalid doc resource_uri reason) as (Hc & Hb & Hl).
      destruct (is_None is_commit_required_value);
        destruct (is_None commit_required_value); simpl;
        repeat match goal with
               | |- context [is_commit_required doc resource_uri] =>
                   destruct (is_commit_required doc resource_uri) as [?|?]; simpl
               | |- context [reboot_required doc resource_uri] =>
                   destruct (reboot_required doc resource_uri) as [?|?]; simpl
               | |- context [is_reboot_required doc resource_uri] =>
                   destruct (is_reboot_required doc resource_uri) as [?|?]; simpl
               end;
        try discriminate; intros [= ->]; congruence.
    + split; [done |]. intros Hmem. revert Hr. unfold build_return_dict.
      apply py_in_member in Hmem. rewrite Hmem, andb_false_r.
      replace (is_None is_reboot_required_value) with false
        by (by destruct is_reboot_required_value).
      destruct (readers_not_invalid doc resource_uri reason) as (Hc & Hb & Hl).
      destruct (is_None is_commit_required_value);
        destruct (is_None commit_required_value); simpl;
        repeat match goal with
               | |- context [is_commit_required doc resource_uri] =>
                   destruct (is_commit_required doc resource_uri) as [?|?]; simpl
               | |- context [is_reboot_required doc resource_uri] =>
                   destruct (is_reboot_required doc resource_uri) as [?|?]; simpl
               end;
        try discriminate; intros [= ->]; congruence.
  - intros [Hnone Hmem]. eexists. by apply Hraise.
Qed.

Lemma build_return_dict_invalid_override_witness :
  build_return_dict doc_pending sample_uri PyNone (PyStr "maybe") PyNone
    = Raise (InvalidParameterValue
               ("is_reboot_required_value must be a member of the "
                +:+ "RebootRequired enumeration or None.  "
                +:+ "The passed value was maybe")).
Proof.
  apply (proj2 (build_return_dict_invalid_override
                  doc_pending sample_uri PyNone (PyStr "maybe") PyNone)).
  - discriminate.
  - intros Hm. apply reboot_required_member_iff in Hm.
    destruct Hm as [H | [H | [H | [H | H]]]]; discriminate H.
Defined.

(** ** Integer validation: [validate_integer_value] *)

(** On a value that is [None], a boolean, an integer or a string the
    conversion [int] returns or raises [ValueError]. *)
Lemma py_int_value_error (value : pyval) :
  (forall items, value <> PyList items) -> value <> PyNone ->
  (exists n, py_int value = Return n) \/ py_int value = Raise ValueError.
Proof.
  intros Hl Hn. destruct value as [|b|n|s|items]; simpl.
  - done.
  - eauto.
  - eauto.
  - destruct (IntParse.of_str s); eauto.
  - by destruct (Hl items).
Qed.

(** C5, as the code has it.  The call returns [None] and reports only
    through the list: when the value is [None] it appends the message that
    the name is not supplied; when the conversion to an integer raises
    [ValueError] it appends the message that the name is not an integer
    value; when the conversion succeeds, as on the string [42], the list is
    unchanged.  Whenever the call returns, it returns [None] and the list
    is the one given, with at most one message appended.  For a value that
    is [None], a boolean, an integer or a string nothing is raised. *)
Theorem validate_integer_value_spec
    (value : pyval) (attr_name : string) (error_msgs : list string) :
  (value = PyNone ->
     validate_integer_value value attr_name error_msgs
       = Return (PyNone,
                 (error_msgs ++ ["'" +:+ attr_name +:+ "' is not supplied"])%list))
  /\ (value <> PyNone -> py_int value = Raise ValueError ->
     validate_integer_value value attr_name error_msgs
       = Return (PyNone,
                 (error_msgs
                    ++ ["'" +:+ attr_name +:+ "' is not an integer value"])%list))
  /\ (forall n, py_int value = Return n ->
     validate_integer_value value attr_name error_msgs
       = Return (PyNone, error_msgs))
  /\ (value = PyStr "42" ->
     validate_integer_value value attr_name error_msgs
       = Return (PyNone, error_msgs))
  /\ (forall v msgs,
     validate_integer_value value attr_name error_msgs = Return (v, msgs) ->
     v = PyNone
     /\ (msgs = error_msgs \/ exists m, msgs = (error_msgs ++ [m])%list))
  /\ ((forall items, value <> PyList items) ->
     ~ raises (validate_integer_value value attr_name error_msgs)).
Proof.
  unfold validate_integer_value.
  split; [| split; [| split; [| split; [| split]]]].
  - by intros ->.
  - intros Hn Hv. apply is_None_false in Hn. by rewrite Hn, Hv.
  - intros n Hv. destruct value; try done; by rewrite Hv.
  - by intros ->.
  - intros v msgs. destruct (is_None value).
    + intros [= <- <-]. eauto.
    + destruct (py_int value) as [n|[]]; intros [= <- <-]; eauto.
  - intros Hl [e He]. destruct (is_None value) eqn:Hn; [done |].
    apply is_None_false in Hn.
    destruct (py_int_value_error value Hl Hn) as [[n Hv] | Hv];
      by rewrite Hv in He.
Qed.

Lemma validate_integer_value_witness :
  validate_integer_value PyNone "port" [] = Return (PyNone, ["'port' is not supplied"])
  /\ validate_integer_value (PyStr "abc") "port" []
     = Return (PyNone, ["'port' is not an integer value"])
  /\ validate_integer_value (PyStr "42") "port" [] = Return (PyNone, [])
  /\ ~ raises (validate_integer_value (PyInt 7) "port" []).
Proof.
  split; [| split; [| split]].
  - apply (proj1 (validate_integer_value_spec PyNone "port" [])). reflexivity.
  - apply (proj1 (proj2 (validate_integer_value_spec (PyStr "abc") "port" [])));
      [discriminate | reflexivity].
  - apply (proj1 (proj2 (proj2 (proj2
             (validate_integer_value_spec (PyStr "42") "port" []))))).
    reflexivity.
  - apply (proj2 (proj2 (proj2 (proj2 (proj2
             (validate_integer_value_spec (PyInt 7) "port" [])))))).
    discriminate.
Defined.

(** C5 as stated fails on a value the conversion to an integer rejects with
    an error other than [ValueError]: on a list the call raises
    [TypeError]. *)
Lemma validate_integer_value_counterexample :
  validate_integer_value (PyList []) "port" [] = Raise TypeError
  /\ raises (validate_integer_value (PyList []) "port" []).
Proof. split; [reflexivity | by exists TypeError]. Qed.

(** * Further properties of the module *)

(** ** Whitespace *)

Lemma rstrip_idemp (s : string) : Str.rstrip (Str.rstrip s) = Str.rstrip s.
Proof.
  induction s as [|c s IH]; simpl; [done |].
  destruct (Str.rstrip s) as [|d t] eqn:Ht.
  - destruct (Str.isspace c) eqn:Hc; simpl; [done | by rewrite Hc].
  - change (Str.rstrip (String c (String d t))) with
      (match Str.rstrip (String d t) with
       | EmptyString =>
           if Str.isspace c then EmptyString else String c EmptyString
       | r => String c r
       end).
    by rewrite IH.
Qed.

Lemma lstrip_no_space c s :
  Str.isspace c = false -> Str.lstrip (String c s) = String c s.
Proof. intros Hc. simpl. by rewrite Hc. Qed.

(** Stripping twice is stripping once. *)
Lemma strip_idemp (s : string) : Str.strip (Str.strip s) = Str.strip s.
Proof.
  unfold Str.strip.
  destruct (Str.lstrip s) as [|d u] eqn:Hl; [done |].
  pose proof (lstrip_head _ _ _ Hl) as Hd.
  destruct (rstrip_head d u Hd) as [v Hv]. rewrite Hv.
  rewrite (lstrip_no_space d v Hd), <- Hv. apply rstrip_idemp.
Qed.

Lemma lstrip_all_space (s : string) :
  Str.all_space s -> Str.lstrip s = EmptyString.
Proof.
  induction s as [|c s IH]; simpl; [done |]. intros H.
  rewrite (H c) by (by left). apply IH. intros d Hd. apply H. by right.
Qed.

(** A string of whitespace only, the empty string included, strips to the
    empty string. *)
Lemma strip_all_space (s : string) :
  Str.all_space s -> Str.strip s = EmptyString.
Proof. intros H. unfold Str.strip. by rewrite (lstrip_all_space s H). Qed.

(** ** One field, read backwards: what an outcome says about the document *)

Lemma get_wsman_resource_attr_cases
    (doc : Element) (uri attr : string) (nullable allow_missing : bool) :
  get_wsman_resource_attr doc uri attr nullable allow_missing
  = match head (elements_named doc uri attr) with
    | None =>
        if allow_missing then Return None
        else Raise (DRACMissingResponseField attr)
    | Some item =>
        match nullable, text item with
        | false, None => Raise (DRACEmptyResponseField attr)
        | false, Some t => Return (Some (Str.strip t))
        | true, None =>
            if _is_attr_non_nil item then Raise (AttributeError "strip")
            else Return None
        | true, Some t =>
            if _is_attr_non_nil item then Return (Some (Str.strip t))
            else Return None
        end
    end.
Proof.
  unfold get_wsman_resource_attr, text_strip. rewrite find_xml_first.
  destruct (head _) as [item|]; [| done].
  destruct nullable, (text item), (_is_attr_non_nil item); done.
Qed.

(** X1.  The exceptions of [get_wsman_resource_attr], exactly:
    [DRACMissingResponseField] when the field is missing and
    [allow_missing] is false, [DRACEmptyResponseField] when the first
    element has no text and [nullable] is false, the attribute error on
    [strip] when the first element has no text, is not marked nil and
    [nullable] is true; the first two carry the attribute name, and nothing
    else is ever raised. *)
Theorem get_wsman_resource_attr_raises
    (doc : Element) (resource_uri attr_name : string)
    (nullable allow_missing : bool) (e : exn) :
  get_wsman_resource_attr doc resource_uri attr_name nullable allow_missing
    = Raise e
  <-> (e = DRACMissingResponseField attr_name /\ allow_missing = false
       /\ elements_named doc resource_uri attr_name = [])
      \/ (exists item,
            head (elements_named doc resource_uri attr_name) = Some item
            /\ text item = None
            /\ ((e = DRACEmptyResponseField attr_name /\ nullable = false)
                \/ (e = AttributeError "strip" /\ nullable = true
                    /\ _is_attr_non_nil item = true))).
Proof.
  rewrite get_wsman_resource_attr_cases.
  destruct (head _) as [item|] eqn:Hh; split.
  - intros H. right. exists item. split; [done |].
    destruct nullable, (text item) as [t|], (_is_attr_non_nil item);
      try discriminate H; injection H as <-; split; try done;
      [right | left | left]; done.
  - intros [(_ & _ & Hnil) | (item' & [= <-] & Ht & Hcase)].
    + by rewrite Hnil in Hh.
    + rewrite Ht. destruct Hcase as [(-> & ->) | (-> & -> & ->)]; done.
  - intros H. left. apply head_None in Hh.
    destruct allow_missing; [discriminate H | by injection H as <-].
  - intros [(-> & -> & _) | (item & [=] & _)]. done.
Qed.

Lemma get_wsman_resource_attr_raises_witness :
  get_wsman_resource_attr doc_two_hosts sample_uri "Model" true false
    = Raise (DRACMissingResponseField "Model")
  /\ get_wsman_resource_attr doc_no_text sample_uri "HostName" false true
    = Raise (DRACEmptyResponseField "HostName").
Proof.
  split.
  - apply (proj2 (get_wsman_resource_attr_raises
                    doc_two_hosts sample_uri "Model" true false _)).
    left. split; [reflexivity | split; reflexivity].
  - apply (proj2 (get_wsman_resource_attr_raises
                    doc_no_text sample_uri "HostName" false true _)).
    right. exists (leaf "{urn:sample}HostName" None).
    split; [reflexivity | split; [reflexivity |]].
    left. split; reflexivity.
Defined.

(** X2.  [None] as a result has two causes and no other: the field is
    missing and [allow_missing] is true, or [nullable] is true and the first
    element is marked nil.  With both flags false [None] is never returned. *)
Theorem get_wsman_resource_attr_returns_None
    (doc : Element) (resource_uri attr_name : string)
    (nullable allow_missing : bool) :
  (get_wsman_resource_attr doc resource_uri attr_name nullable allow_missing
     = Return None
   <-> (allow_missing = true
        /\ elements_named doc resource_uri attr_name = [])
       \/ (exists item,
             head (elements_named doc resource_uri attr_name) = Some item
             /\ nullable = true /\ _is_attr_non_nil item = false))
  /\ get_wsman_resource_attr doc resource_uri attr_name false false
     <> Return None.
Proof.
  rewrite !get_wsman_resource_attr_cases. split.
  - destruct (head _) as [item|] eqn:Hh; split.
    + intros H. right. exists item. split; [done |].
      destruct nullable, (text item) as [t|], (_is_attr_non_nil item);
        try discriminate H; done.
    + intros [(_ & Hnil) | (item' & [= <-] & -> & ->)].
      * by rewrite Hnil in Hh.
      * by destruct (text item).
    + intros H. left. apply head_None in Hh.
      destruct allow_missing; [done | discriminate H].
    + intros [(-> & _) | (item & [=] & _)]. done.
  - destruct (head _) as [item|]; [| done]. by destruct (text item).
Qed.

Lemma get_wsman_resource_attr_returns_None_witness :
  get_wsman_resource_attr doc_nil sample_uri "HostName" true false
    = Return None
  /\ get_wsman_resource_attr doc_nil sample_uri "Model" false true
    = Return None.
Proof.
  split.
  - apply (proj2 (proj1 (get_wsman_resource_attr_returns_None
                           doc_nil sample_uri "HostName" true false))).
    right. exists (nil_leaf "{urn:sample}HostName" "true" None).
    split; [reflexivity | split; reflexivity].
  - apply (proj2 (proj1 (get_wsman_resource_attr_returns_None
                           doc_nil sample_uri "Model" false true))).
    left. split; reflexivity.
Defined.

Lemma get_wsman_resource_attr_Return_Some
    (doc : Element) (uri attr : string) (nullable allow_missing : bool)
    (v : string) :
  get_wsman_resource_attr doc uri attr nullable allow_missing = Return (Some v) ->
  exists item t,
    head (elements_named doc uri attr) = Some item
    /\ text item = Some t /\ v = Str.strip t.
Proof.
  rewrite get_wsman_resource_attr_cases.
  destruct (head _) as [item|]; [| by destruct allow_missing].
  destruct nullable, (text item) as [t|] eqn:Ht, (_is_attr_non_nil item);
    try discriminate; intros [= <-]; by exists item, t.
Qed.

(** X3.  A string returned by [get_wsman_resource_attr] is the stripped text
    of the first element of the field: stripping it again changes nothing,
    and it neither begins nor ends with whitespace. *)
Theorem get_wsman_resource_attr_stripped
    (doc : Element) (resource_uri attr_name : string)
    (nullable allow_missing : bool) (v : string) :
  get_wsman_resource_attr doc resource_uri attr_name nullable allow_missing
    = Return (Some v) ->
  Str.strip v = v
  /\ (forall c rest, v = String c rest -> Str.isspace c = false)
  /\ (forall c, Str.last_char v = Some c -> Str.isspace c = false).
Proof.
  intros H.
  apply get_wsman_resource_attr_Return_Some in H as (item & t & _ & _ & ->).
  split; [apply strip_idemp | split].
  - intros c rest Hv. by apply (strip_head c rest t).
  - intros c. apply strip_last.
Qed.

Lemma get_wsman_resource_attr_stripped_witness :
  Str.strip "v" = "v"
  /\ (forall c rest, "v" = String c rest -> Str.isspace c = false)
  /\ (forall c, Str.last_char "v" = Some c -> Str.isspace c = false).
Proof.
  apply (get_wsman_resource_attr_stripped
           doc_padded sample_uri "HostName" false false "v").
  reflexivity.
Defined.

(** X4.  When the first element of the field has text and is not marked
    nil, neither flag matters: the four combinations return the same
    stripped text. *)
Theorem get_wsman_resource_attr_flags_irrelevant
    (doc : Element) (resource_uri attr_name : string)
    (item : Element) (t : string) :
  head (elements_named doc resource_uri attr_name) = Some item ->
  text item = Some t ->
  _is_attr_non_nil item = true ->
  forall nullable allow_missing,
    get_wsman_resource_attr doc resource_uri attr_name nullable allow_missing
      = Return (Some (Str.strip t)).
Proof.
  intros Hh Ht Hn nullable allow_missing.
  rewrite get_wsman_resource_attr_cases, Hh, Ht, Hn. by destruct nullable.
Qed.

Lemma get_wsman_resource_attr_flags_irrelevant_witness :
  get_wsman_resource_attr doc_padded sample_uri "HostName" false false
    = Return (Some "v")
  /\ get_wsman_resource_attr doc_padded sample_uri "HostName" false true
    = Return (Some "v")
  /\ get_wsman_resource_attr doc_padded sample_uri "HostName" true false
    = Return (Some "v")
  /\ get_wsman_resource_attr doc_padded sample_uri "HostName" true true
    = Return (Some "v").
Proof.
  pose proof (get_wsman_resource_attr_flags_irrelevant
                doc_padded sample_uri "HostName"
                (leaf "{urn:sample}HostName" (Some "  v  ")) "  v  "
                eq_refl eq_refl eq_refl) as H.
  split; [apply (H false false) | split; [apply (H false true) |
    split; [apply (H true false) | apply (H true true)]]].
Defined.

(** ** All elements of a field, read backwards *)

Lemma check_texts_Return (attr_name : string) (items : list Element) (u : unit) :
  check_texts attr_name items = Return u ->
  Forall (fun e => is_Some (text e)) items.
Proof.
  induction items as [|e items IH]; simpl; [by constructor |].
  destruct (text e) as [t|] eqn:Ht; [| done].
  intros H. constructor; [by exists t | by apply IH].
Qed.

Lemma check_texts_Raise (attr_name : string) (items : list Element) (e : exn) :
  check_texts attr_name items = Raise e ->
  e = DRACEmptyResponseField attr_name
  /\ Exists (fun x => text x = None) items.
Proof.
  induction items as [|x items IH]; simpl; [done |].
  destruct (text x) as [t|] eqn:Ht.
  - intros H. destruct (IH H) as [-> Hex]. split; [done | by right].
  - intros [= <-]. split; [done | by left].
Qed.

Lemma mapM_text_strip_Return (items : list Element) (l : list string) :
  mapM text_strip items = Return l ->
  exists ts, Forall2 (fun e t => text e = Some t) items ts
             /\ l = Str.strip <$> ts.
Proof.
  revert l. induction items as [|e items IH]; simpl; intros l.
  - intros [= <-]. by exists [].
  - destruct (text e) as [t|] eqn:Ht.
    + rewrite (text_strip_Some _ _ Ht). simpl.
      destruct (mapM text_strip items) as [l'|] eqn:Hm; [| done].
      intros [= <-]. destruct (IH l' eq_refl) as (ts & Hts & ->).
      exists (t :: ts). split; [by constructor | done].
    + by rewrite (text_strip_None _ Ht).
Qed.

Lemma mapM_text_strip_Raise (items : list Element) (e : exn) :
  mapM text_strip items = Raise e ->
  e = AttributeError "strip" /\ Exists (fun x => text x = None) items.
Proof.
  induction items as [|x items IH]; simpl; [done |].
  destruct (text x) as [t|] eqn:Ht.
  - rewrite (text_strip_Some _ _ Ht). simpl.
    destruct (mapM text_strip items) as [l'|e'] eqn:Hm; [done |].
    intros [= <-]. destruct (IH eq_refl) as [-> Hex]. split; [done | by right].
  - rewrite (text_strip_None _ Ht). intros [= <-]. split; [done | by left].
Qed.

Lemma Exists_filter_non_nil (Q : Element -> Prop) (items : list Element) :
  Exists Q (filter (fun e => _is_attr_non_nil e = true) items)
  <-> Exists (fun e => _is_attr_non_nil e = true /\ Q e) items.
Proof.
  rewrite !Exists_exists. split.
  - intros (x & Hx & HQ). apply list_elem_of_filter in Hx as [Hn Hx]. eauto.
  - intros (x & Hx & Hn & HQ). exists x. split; [| done].
    by apply list_elem_of_filter.
Qed.

(** The elements whose text [get_all_wsman_resource_attrs] reads. *)
Lemma get_all_wsman_resource_attrs_cases
    (doc : Element) (uri attr : string) (nullable : bool) :
  get_all_wsman_resource_attrs doc uri attr nullable
  = if nullable
    then mapM text_strip
           (filter (fun e => _is_attr_non_nil e = true)
              (elements_named doc uri attr))
    else _ ← check_texts attr (elements_named doc uri attr);
         mapM text_strip (elements_named doc uri attr).
Proof.
  unfold get_all_wsman_resource_attrs. rewrite find_xml_all.
  by destruct nullable.
Qed.

Lemma get_all_wsman_resource_attrs_Return
    (doc : Element) (uri attr : string) (nullable : bool) (l : list string) :
  get_all_wsman_resource_attrs doc uri attr nullable = Return l ->
  exists ts,
    Forall2 (fun e t => text e = Some t)
      (if nullable
       then filter (fun e => _is_attr_non_nil e = true)
              (elements_named doc uri attr)
       else elements_named doc uri attr) ts
    /\ l = Str.strip <$> ts.
Proof.
  rewrite get_all_wsman_resource_attrs_cases. destruct nullable.
  - apply mapM_text_strip_Return.
  - destruct (check_texts attr _) as [u|e]; [| done].
    apply mapM_text_strip_Return.
Qed.

(** X5.  What [get_all_wsman_resource_attrs] returns is aligned with the
    document: with [nullable] false there is one string per element of the
    field, with [nullable] true one per element not marked nil; the string
    at each position is the stripped text of the element at that position,
    and stripping it again changes nothing. *)
Theorem get_all_wsman_resource_attrs_aligned
    (doc : Element) (resource_uri attr_name : string) (nullable : bool)
    (l : list string) :
  get_all_wsman_resource_attrs doc resource_uri attr_name nullable = Return l ->
  let kept :=
    if nullable
    then filter (fun e => _is_attr_non_nil e = true)
           (elements_named doc resource_uri attr_name)
    else elements_named doc resource_uri attr_name in
  length l = length kept
  /\ (forall i v, l !! i = Some v ->
        exists e t, kept !! i = Some e /\ text e = Some t /\ v = Str.strip t)
  /\ Forall (fun v => Str.strip v = v) l.
Proof.
  intros H kept.
  apply get_all_wsman_resource_attrs_Return in H as (ts & Hts & ->).
  fold kept in Hts. split; [| split].
  - rewrite length_fmap. symmetry. by eapply Forall2_length.
  - intros i v Hv. rewrite list_lookup_fmap in Hv.
    destruct (ts !! i) as [t|] eqn:Ht; [| done]. injection Hv as <-.
    destruct (Forall2_lookup_r _ _ _ _ _ Hts Ht) as (e & He & Het).
    by exists e, t.
  - apply Forall_fmap, Forall_forall. intros t _. apply strip_idemp.
Qed.

Lemma get_all_wsman_resource_attrs_aligned_witness :
  length ["10.0.0.1"; "10.0.0.3"]
    = length (filter (fun e => _is_attr_non_nil e = true)
                (elements_named doc_addresses sample_uri "Address"))
  /\ (forall i v, ["10.0.0.1"; "10.0.0.3"] !! i = Some v ->
        exists e t,
          filter (fun e => _is_attr_non_nil e = true)
            (elements_named doc_addresses sample_uri "Address") !! i = Some e
          /\ text e = Some t /\ v = Str.strip t)
  /\ Forall (fun v => Str.strip v = v) ["10.0.0.1"; "10.0.0.3"].
Proof.
  apply (get_all_wsman_resource_attrs_aligned
           doc_addresses sample_uri "Address" true ["10.0.0.1"; "10.0.0.3"]).
  reflexivity.
Defined.

(** X6.  The exceptions of [get_all_wsman_resource_attrs], exactly: with
    [nullable] false, [DRACEmptyResponseField] with the attribute name when
    some element of the field has no text; with [nullable] true, the
    attribute error on [strip] when some element that is not marked nil has
    no text.  Nothing else is raised: a missing field is not an error. *)
Theorem get_all_wsman_resource_attrs_raises
    (doc : Element) (resource_uri attr_name : string) (e : exn) :
  (get_all_wsman_resource_attrs doc resource_uri attr_name false = Raise e
   <-> e = DRACEmptyResponseField attr_name
       /\ Exists (fun x => text x = None)
            (elements_named doc resource_uri attr_name))
  /\ (get_all_wsman_resource_attrs doc resource_uri attr_name true = Raise e
   <-> e = AttributeError "strip"
       /\ Exists (fun x => _is_attr_non_nil x = true /\ text x = None)
            (elements_named doc resource_uri attr_name)).
Proof.
  rewrite !get_all_wsman_resource_attrs_cases. split; split.
  - destruct (check_texts attr_name _) as [u|e'] eqn:Hc; simpl.
    + intros Hm. apply mapM_text_strip_Raise in Hm as [_ Hex].
      apply check_texts_Return in Hc.
      apply Exists_exists in Hex as (x & Hx & Hnone).
      rewrite Forall_forall in Hc. destruct (Hc x Hx) as [t Ht]. congruence.
    + intros [= <-]. by apply check_texts_Raise in Hc.
  - intros [-> Hex]. by rewrite (check_texts_fail _ _ Hex).
  - intros Hm. apply mapM_text_strip_Raise in Hm as [-> Hex].
    split; [done | by apply Exists_filter_non_nil].
  - intros [-> Hex]. apply mapM_text_strip_fail.
    by apply Exists_filter_non_nil.
Qed.

Lemma get_all_wsman_resource_attrs_raises_witness :
  get_all_wsman_resource_attrs doc_two_hosts sample_uri "HostName" false
    = Raise (DRACEmptyResponseField "HostName")
  /\ get_all_wsman_resource_attrs doc_two_hosts sample_uri "HostName" true
    = Raise (AttributeError "strip").
Proof.
  split.
  - apply (proj2 (proj1 (get_all_wsman_resource_attrs_raises
                           doc_two_hosts sample_uri "HostName" _))).
    split; [reflexivity |]. apply Exists_cons_tl, Exists_cons_hd. reflexivity.
  - apply (proj2 (proj2 (get_all_wsman_resource_attrs_raises
                           doc_two_hosts sample_uri "HostName" _))).
    split; [reflexivity |]. apply Exists_cons_tl, Exists_cons_hd.
    split; reflexivity.
Defined.

(** ** One field against all of them *)

(** X7.  [get_wsman_resource_attr] reads the first element that
    [get_all_wsman_resource_attrs] reads: when the latter, with [nullable]
    false, returns a list, the former returns the head of that list, or
    [None] with [allow_missing] true and [DRACMissingResponseField] with
    [allow_missing] false when the list is empty. *)
Theorem get_wsman_resource_attr_head_of_all
    (doc : Element) (resource_uri attr_name : string) (l : list string) :
  get_all_wsman_resource_attrs doc resource_uri attr_name false = Return l ->
  get_wsman_resource_attr doc resource_uri attr_name false true
    = Return (head l)
  /\ (l <> [] ->
      get_wsman_resource_attr doc resource_uri attr_name false false
        = Return (head l))
  /\ (l = [] ->
      get_wsman_resource_attr doc resource_uri attr_name false false
        = Raise (DRACMissingResponseField attr_name)).
Proof.
  intros H.
  apply get_all_wsman_resource_attrs_Return in H as (ts & Hts & ->).
  rewrite !get_wsman_resource_attr_cases.
  destruct Hts as [|e t items ts Ht Hts]; simpl.
  - by repeat split.
  - rewrite Ht. by repeat split.
Qed.

Lemma get_wsman_resource_attr_head_of_all_witness :
  get_wsman_resource_attr doc_pending sample_uri "RebootRequired" false true
    = Return (Some "No")
  /\ get_wsman_resource_attr doc_pending sample_uri "Model" false false
    = Raise (DRACMissingResponseField "Model").
Proof.
  split.
  - apply (proj1 (get_wsman_resource_attr_head_of_all
                    doc_pending sample_uri "RebootRequired" ["No"] eq_refl)).
  - apply (proj2 (proj2 (get_wsman_resource_attr_head_of_all
                           doc_pending sample_uri "Model" [] eq_refl))).
    reflexivity.
Defined.

Lemma Forall2_text_filter (P : Element -> Prop) `{forall e, Decision (P e)}
    (items : list Element) (ts : list string) :
  Forall2 (fun e t => text e = Some t) items ts ->
  exists ts', Forall2 (fun e t => text e = Some t) (filter P items) ts'
              /\ sublist ts' ts.
Proof.
  induction 1 as [|e t items ts Ht _ (ts' & Hts' & Hsub)].
  - exists []. split; [constructor | constructor].
  - destruct (decide (P e)) as [HP|HP].
    + exists (t :: ts'). rewrite filter_cons_True by done.
      split; [by constructor | by apply sublist_skip].
    + exists ts'. rewrite filter_cons_False by done.
      split; [done | by apply sublist_cons].
Qed.

(** X8.  Turning [nullable] on can only remove results: when the call with
    [nullable] false returns a list, the call with [nullable] true returns
    too, and its list is the first one with some entries left out, the
    others in the same order. *)
Theorem get_all_wsman_resource_attrs_nullable_sublist
    (doc : Element) (resource_uri attr_name : string) (l : list string) :
  get_all_wsman_resource_attrs doc resource_uri attr_name false = Return l ->
  exists l',
    get_all_wsman_resource_attrs doc resource_uri attr_name true = Return l'
    /\ sublist l' l.
Proof.
  intros H.
  apply get_all_wsman_resource_attrs_Return in H as (ts & Hts & ->).
  destruct (Forall2_text_filter
              (fun e => _is_attr_non_nil e = true) _ _ Hts)
    as (ts' & Hts' & Hsub).
  exists (Str.strip <$> ts'). split.
  - rewrite get_all_wsman_resource_attrs_cases. by apply mapM_text_strip.
  - by apply (fmap_sublist Str.strip).
Qed.

Lemma get_all_wsman_resource_attrs_nullable_sublist_witness :
  exists l',
    get_all_wsman_resource_attrs doc_pending sample_uri "RebootRequired" true
      = Return l'
    /\ sublist l' ["No"].
Proof.
  apply (get_all_wsman_resource_attrs_nullable_sublist
           doc_pending sample_uri "RebootRequired" ["No"]).
  reflexivity.
Defined.

(** ** The readers, read backwards *)

Lemma bind_mret_Raise {A B : Type} (m : result A) (f : A -> B) (e : exn) :
  (m ≫= fun t => mret (f t)) = Raise e <-> m = Raise e.
Proof.
  destruct m as [a|e']; simpl; split; intros H; try discriminate H;
    by injection H as ->.
Qed.

Lemma text_lower_first (doc : Element) (uri name : string) :
  text_lower (find_xml doc name uri false)
  = match head (elements_named doc uri name) with
    | None => Raise (AttributeError "text")
    | Some e =>
        match text e with
        | None => Raise (AttributeError "lower")
        | Some t => Return (Str.lower t)
        end
    end.
Proof. reflexivity. Qed.

Lemma text_lower_Raise (doc : Element) (uri name : string) (e : exn) :
  text_lower (find_xml doc name uri false) = Raise e
  <-> (e = AttributeError "text" /\ elements_named doc uri name = [])
      \/ (e = AttributeError "lower"
          /\ exists x, head (elements_named doc uri name) = Some x
                       /\ text x = None).
Proof.
  rewrite text_lower_first.
  destruct (head _) as [x|] eqn:Hh; split.
  - destruct (text x) as [t|] eqn:Ht; [done |].
    intros [= <-]. right. split; [done | by exists x].
  - intros [[_ Hnil] | (-> & x' & [= <-] & ->)]; [| done].
    by rewrite Hnil in Hh.
  - intros [= <-]. left. split; [done | by apply head_None].
  - intros [[-> _] | (_ & x & [=] & _)]. done.
Qed.

Lemma REBOOT_REQUIRED_lookup (k : string) (v : pyval) :
  REBOOT_REQUIRED !! k = Some v <->
  (k = "yes" /\ v = PyBool true) \/ (k = "no" /\ v = PyBool false)
  \/ (k = "optional" /\ v = PyStr "optional").
Proof.
  split.
  - intros H.
    destruct (decide (k = "yes")) as [->|Hy];
      [left; split; [done |]; by injection H |].
    destruct (decide (k = "no")) as [->|Hn];
      [right; left; split; [done |]; by injection H |].
    destruct (decide (k = "optional")) as [->|Ho];
      [right; right; split; [done |]; by injection H |].
    by rewrite REBOOT_REQUIRED_other in H.
  - intros [[-> ->] | [[-> ->] | [-> ->]]]; reflexivity.
Qed.

(** X9.  [is_commit_required] answers true exactly when the first
    [SetResult] has a text in which [pendingvalue] occurs, whatever the case
    of its letters, and false exactly when it has a text without such an
    occurrence. *)
Theorem is_commit_required_substring (doc : Element) (resource_uri : string) :
  (is_commit_required doc resource_uri = Return true
   <-> exists e t a b,
         head (elements_named doc resource_uri "SetResult") = Some e
         /\ text e = Some t
         /\ Str.lower t = a +:+ "pendingvalue" +:+ b)
  /\ (is_commit_required doc resource_uri = Return false
   <-> exists e t,
         head (elements_named doc resource_uri "SetResult") = Some e
         /\ text e = Some t
         /\ ~ exists a b, Str.lower t = a +:+ "pendingvalue" +:+ b).
Proof.
  unfold is_commit_required. rewrite text_lower_first.
  destruct (head _) as [e|].
  2:{ split; split; try done.
      - by intros (? & ? & ? & ? & [=] & _).
      - by intros (? & ? & [=] & _). }
  destruct (text e) as [t|] eqn:Ht.
  2:{ split; split; try done.
      - intros (? & ? & ? & ? & [= <-] & Ht' & _). congruence.
      - intros (? & ? & [= <-] & Ht' & _). congruence. }
  simpl. unfold mret, result_ret.
  destruct (Str.contains "pendingvalue" (Str.lower t)) eqn:Hc.
  - apply contains_spec in Hc as (a & b & Hab). split; split; try done.
    + intros _. by exists e, t, a, b.
    + intros (e' & t' & [= <-] & Ht' & Hno). destruct Hno.
      exists a, b. congruence.
  - split; split; try done.
    + intros (e' & t' & a & b & [= <-] & Ht' & Hab).
      assert (t' = t) as -> by congruence.
      assert (Str.contains "pendingvalue" (Str.lower t) = true) as Hc'
        by (apply contains_spec; eauto).
      congruence.
    + intros _. exists e, t. split; [done | split; [done |]].
      intros (a & b & Hab).
      assert (Str.contains "pendingvalue" (Str.lower t) = true) as Hc'
        by (apply contains_spec; eauto).
      congruence.
Qed.

Lemma is_commit_required_substring_witness :
  is_commit_required (doc_set_result "Configuration PendingValue set")
    sample_uri = Return true.
Proof.
  apply (proj2 (proj1 (is_commit_required_substring
                         (doc_set_result "Configuration PendingValue set")
                         sample_uri))).
  exists (leaf "{urn:sample}SetResult" (Some "Configuration PendingValue set")),
    "Configuration PendingValue set", "configuration ", " set".
  split; [reflexivity | split; reflexivity].
Defined.

(** X10.  The three readers do not report a missing field as such.  Each
    raises the attribute error on [text] when its field is missing and the
    attribute error on [lower] when the first element of its field has no
    text; [is_commit_required] and [is_reboot_required] raise nothing else,
    and [reboot_required] raises besides only [KeyError], with the text in
    lower case, when that text is not [yes], [no] or [optional]. *)
Theorem readers_raise (doc : Element) (resource_uri : string) (e : exn) :
  (is_commit_required doc resource_uri = Raise e
   <-> (e = AttributeError "text"
        /\ elements_named doc resource_uri "SetResult" = [])
       \/ (e = AttributeError "lower"
           /\ exists x, head (elements_named doc resource_uri "SetResult") = Some x
                        /\ text x = None))
  /\ (is_reboot_required doc resource_uri = Raise e
   <-> (e = AttributeError "text"
        /\ elements_named doc resource_uri "RebootRequired" = [])
       \/ (e = AttributeError "lower"
           /\ exists x, head (elements_named doc resource_uri "RebootRequired") = Some x
                        /\ text x = None))
  /\ (reboot_required doc resource_uri = Raise e
   <-> (e = AttributeError "text"
        /\ elements_named doc resource_uri "RebootRequired" = [])
       \/ (e = AttributeError "lower"
           /\ exists x, head (elements_named doc resource_uri "RebootRequired") = Some x
                        /\ text x = None)
       \/ (exists x t,
             head (elements_named doc resource_uri "RebootRequired") = Some x
             /\ text x = Some t /\ e = KeyError (Str.lower t)
             /\ Str.lower t <> "yes" /\ Str.lower t <> "no"
             /\ Str.lower t <> "optional")).
Proof.
  split; [| split].
  - rewrite <- text_lower_Raise. unfold is_commit_required.
    apply bind_mret_Raise.
  - rewrite <- text_lower_Raise. unfold is_reboot_required.
    apply bind_mret_Raise.
  - unfold reboot_required. rewrite text_lower_first.
    destruct (head _) as [x|] eqn:Hh; simpl.
    2:{ split.
        - intros [= <-]. left. split; [done | by apply head_None].
        - intros [[-> _] | [(_ & x & [=] & _) | (x & t & [=] & _)]]. done. }
    destruct (text x) as [t|] eqn:Ht; simpl.
    2:{ split.
        - intros [= <-]. right. left. split; [done | by exists x].
        - intros [[_ Hnil] | [(-> & _) | (x' & t' & [= <-] & Ht' & _)]].
          + by rewrite Hnil in Hh.
          + done.
          + congruence. }
    destruct (REBOOT_REQUIRED !! Str.lower t) as [v|] eqn:Hv; split.
    + done.
    + intros [[_ Hnil] | [(_ & x' & [= <-] & Hn)
                         | (x' & t' & [= <-] & Ht' & _ & H1 & H2 & H3)]].
      * by rewrite Hnil in Hh.
      * congruence.
      * assert (t' = t) as -> by congruence.
        by rewrite REBOOT_REQUIRED_other in Hv.
    + intros [= <-]. right. right. exists x, t.
      repeat split; try done; intros Hk; rewrite Hk in Hv; discriminate Hv.
    + intros [[_ Hnil] | [(_ & x' & [= <-] & Hn)
                         | (x' & t' & [= <-] & Ht' & -> & _)]].
      * by rewrite Hnil in Hh.
      * congruence.
      * assert (t' = t) as -> by congruence. done.
Qed.

Lemma readers_raise_witness :
  is_commit_required (doc_reboot "Yes") sample_uri
    = Raise (AttributeError "text")
  /\ reboot_required (doc_reboot "Later") sample_uri
    = Raise (KeyError "later").
Proof.
  split.
  - apply (proj2 (proj1 (readers_raise (doc_reboot "Yes") sample_uri _))).
    left. split; reflexivity.
  - apply (proj2 (proj2 (proj2 (readers_raise
                                  (doc_reboot "Later") sample_uri _)))).
    right. right.
    exists (leaf "{urn:sample}RebootRequired" (Some "Later")), "Later".
    repeat split; discriminate.
Defined.

(** X11.  The two readers of [RebootRequired] agree where both answer, and
    [is_reboot_required] answers on more documents: when [reboot_required]
    returns a value, [is_reboot_required] returns true exactly when that
    value is true (so it returns false for [optional]); when
    [reboot_required] raises [KeyError], [is_reboot_required] returns
    false. *)
Theorem reboot_readers_agree (doc : Element) (resource_uri : string) :
  (forall v, reboot_required doc resource_uri = Return v ->
     exists b, is_reboot_required doc resource_uri = Return b
               /\ (b = true <-> v = PyBool true))
  /\ (forall k, reboot_required doc resource_uri = Raise (KeyError k) ->
     is_reboot_required doc resource_uri = Return false).
Proof.
  unfold reboot_required, is_reboot_required. rewrite text_lower_first.
  destruct (head _) as [x|]; [| done].
  destruct (text x) as [t|]; [| done]. simpl. unfold mret, result_ret. split.
  - intros v. destruct (REBOOT_REQUIRED !! Str.lower t) as [v'|] eqn:Hv;
      [| done]. intros [= <-]. eexists. split; [done |].
    apply REBOOT_REQUIRED_lookup in Hv
      as [[-> ->] | [[-> ->] | [-> ->]]]; done.
  - intros k. destruct (REBOOT_REQUIRED !! Str.lower t) as [v'|] eqn:Hv;
      [done |]. intros _. f_equal.
    destruct (String.eqb_spec (Str.lower t) "yes") as [Hy|]; [| done].
    by rewrite Hy in Hv.
Qed.

Lemma reboot_readers_agree_witness :
  (exists b, is_reboot_required (doc_reboot "Optional") sample_uri = Return b
             /\ (b = true <-> PyStr "optional" = PyBool true))
  /\ is_reboot_required (doc_reboot "Later") sample_uri = Return false.
Proof.
  split.
  - apply (proj1 (reboot_readers_agree (doc_reboot "Optional") sample_uri)).
    reflexivity.
  - apply (proj2 (reboot_readers_agree (doc_reboot "Later") sample_uri)
             "later").
    reflexivity.
Defined.

(** ** The result dictionary, read backwards *)

Lemma reboot_required_member_not_None (v : pyval) :
  reboot_required_member v -> is_None v = false.
Proof.
  intros H. apply reboot_required_member_iff in H.
  by destruct H as [-> | [-> | [-> | [-> | ->]]]].
Qed.

Lemma REBOOT_REQUIRED_member (k : string) (v : pyval) :
  REBOOT_REQUIRED !! k = Some v -> reboot_required_member v.
Proof.
  intros H. apply reboot_required_member_iff.
  apply REBOOT_REQUIRED_lookup in H as [[_ ->] | [[_ ->] | [_ ->]]]; tauto.
Qed.

Lemma reboot_required_Return_member (doc : Element) (uri : string) (v : pyval) :
  reboot_required doc uri = Return v -> reboot_required_member v.
Proof.
  unfold reboot_required. destruct (text_lower _) as [t|]; [| done]. simpl.
  destruct (REBOOT_REQUIRED !! t) as [v'|] eqn:Hv; [| done].
  intros [= <-]. by apply (REBOOT_REQUIRED_member t).
Qed.

Lemma reboot_required_is_reboot_required
    (doc : Element) (uri : string) (v : pyval) (b : bool) :
  reboot_required doc uri = Return v ->
  is_reboot_required doc uri = Return b ->
  (b = true <-> v = PyBool true).
Proof.
  unfold reboot_required, is_reboot_required.
  destruct (text_lower _) as [t|]; [| done]. simpl. unfold mret, result_ret.
  destruct (REBOOT_REQUIRED !! t) as [v'|] eqn:Hv; [| done].
  intros [= <-] [= <-].
  apply REBOOT_REQUIRED_lookup in Hv as [[-> ->] | [[-> ->] | [-> ->]]]; done.
Qed.

(** The call as a sequence of three values, each an override or a
    reading. *)
Lemma build_return_dict_binds
    (doc : Element) (uri : string) (c r l : pyval) :
  build_return_dict doc uri c r l
  = if negb (is_None r) && negb (py_in r RebootRequired.all)
    then Raise (InvalidParameterValue (invalid_reboot_required_msg r))
    else
      c' ← (if is_None c then PyBool <$> is_commit_required doc uri
            else Return c);
      r' ← (if is_None r then reboot_required doc uri else Return r);
      l' ← (if is_None l then PyBool <$> is_reboot_required doc uri
            else Return l);
      mret {[ "is_commit_required" := c';
              "is_reboot_required" := r';
              "commit_required" := l' ]}.
Proof.
  unfold build_return_dict.
  destruct (negb (is_None r) && negb (py_in r RebootRequired.all)); [done |].
  destruct (if is_None c then _ else _) as [c'|]; simpl; [| done].
  destruct (if is_None r then _ else _) as [r'|]; simpl; [| done].
  destruct (if is_None l then _ else _) as [l'|]; simpl; [| done].
  reflexivity.
Qed.

(** What a returned dictionary says about the call. *)
Lemma build_return_dict_Return
    (doc : Element) (uri : string) (c r l : pyval) (d : gmap string pyval) :
  build_return_dict doc uri c r l = Return d ->
  exists c' r' l',
    d = {[ "is_commit_required" := c';
           "is_reboot_required" := r';
           "commit_required" := l' ]}
    /\ (if is_None c
        then exists b, is_commit_required doc uri = Return b /\ c' = PyBool b
        else c' = c)
    /\ (if is_None r
        then reboot_required doc uri = Return r'
        else r' = r /\ reboot_required_member r)
    /\ (if is_None l
        then exists b, is_reboot_required doc uri = Return b /\ l' = PyBool b
        else l' = l).
Proof.
  rewrite build_return_dict_binds.
  destruct (negb (is_None r) && negb (py_in r RebootRequired.all)) eqn:Hg;
    [done |].
  destruct (if is_None c then _ else _) as [c'|] eqn:Hc; simpl; [| done].
  destruct (if is_None r then _ else _) as [r'|] eqn:Hr; simpl; [| done].
  destruct (if is_None l then _ else _) as [l'|] eqn:Hl; simpl; [| done].
  intros [= <-]. exists c', r', l'. split; [done |]. split; [| split].
  - destruct (is_None c); [| by injection Hc].
    destruct (is_commit_required doc uri) as [b|]; [| done].
    injection Hc as <-. by exists b.
  - destruct (is_None r) eqn:Hn; [done |]. injection Hr as <-.
    split; [done |]. apply py_in_member.
    simpl in Hg. by apply negb_false_iff in Hg.
  - destruct (is_None l); [| by injection Hl].
    destruct (is_reboot_required doc uri) as [b|]; [| done].
    injection Hl as <-. by exists b.
Qed.

(** X12.  With the three overrides supplied, the second one a member of
    [RebootRequired], the call reads nothing: on every document, one
    without the fields included, it returns the dictionary of the three
    overrides. *)
Theorem build_return_dict_all_overrides
    (is_commit_required_value is_reboot_required_value
       commit_required_value : pyval) :
  is_commit_required_value <> PyNone ->
  reboot_required_member is_reboot_required_value ->
  commit_required_value <> PyNone ->
  forall doc resource_uri,
    build_return_dict doc resource_uri is_commit_required_value
      is_reboot_required_value commit_required_value
    = Return {[ "is_commit_required" := is_commit_required_value;
                "is_reboot_required" := is_reboot_required_value;
                "commit_required" := commit_required_value ]}.
Proof.
  intros Hc Hr Hl doc uri. unfold build_return_dict.
  apply is_None_false in Hc, Hl.
  rewrite (reboot_required_member_not_None _ Hr), Hc, Hl.
  apply py_in_member in Hr. by rewrite Hr.
Qed.

Lemma build_return_dict_all_overrides_witness :
  build_return_dict doc_root_only sample_uri
    (PyBool false) (PyStr "optional") (PyBool true)
  = Return {[ "is_commit_required" := PyBool false;
              "is_reboot_required" := PyStr "optional";
              "commit_required" := PyBool true ]}.
Proof.
  apply (build_return_dict_all_overrides
           (PyBool false) (PyStr "optional") (PyBool true)).
  - discriminate.
  - exists RebootRequired.optional. split; [| reflexivity].
    apply list_elem_of_In. right. left. reflexivity.
  - discriminate.
Defined.

(** X13.  A returned dictionary has the three keys [is_commit_required],
    [is_reboot_required] and [commit_required] and no other, and every
    override that was supplied is the value of its key, unchanged. *)
Theorem build_return_dict_shape
    (doc : Element) (resource_uri : string)
    (is_commit_required_value is_reboot_required_value
       commit_required_value : pyval) (d : gmap string pyval) :
  build_return_dict doc resource_uri is_commit_required_value
    is_reboot_required_value commit_required_value = Return d ->
  dom d = ({[ "is_commit_required"; "is_reboot_required";
              "commit_required" ]} : gset string)
  /\ (is_commit_required_value <> PyNone ->
      d !! "is_commit_required" = Some is_commit_required_value)
  /\ (is_reboot_required_value <> PyNone ->
      d !! "is_reboot_required" = Some is_reboot_required_value)
  /\ (commit_required_value <> PyNone ->
      d !! "commit_required" = Some commit_required_value).
Proof.
  intros H.
  apply build_return_dict_Return in H as (c' & r' & l' & -> & Hc & Hr & Hl).
  split; [| split; [| split]].
  - rewrite !dom_insert_L, dom_singleton_L. set_solver.
  - intros Hn. apply is_None_false in Hn. rewrite Hn in Hc. by subst.
  - intros Hn. apply is_None_false in Hn. rewrite Hn in Hr.
    destruct Hr as [-> _]. done.
  - intros Hn. apply is_None_false in Hn. rewrite Hn in Hl. by subst.
Qed.

Lemma build_return_dict_shape_witness :
  exists d,
    build_return_dict doc_pending sample_uri (PyStr "later") PyNone PyNone
      = Return d
    /\ dom d = ({[ "is_commit_required"; "is_reboot_required";
                   "commit_required" ]} : gset string)
    /\ d !! "is_commit_required" = Some (PyStr "later").
Proof.
  eexists. split; [reflexivity |].
  destruct (build_return_dict_shape doc_pending sample_uri
              (PyStr "later") PyNone PyNone _ eq_refl) as (Hdom & Hc & _).
  split; [exact Hdom | apply Hc; discriminate].
Defined.

(** X14.  The value of [is_reboot_required] in a returned dictionary is
    always a member of [RebootRequired], whether it was supplied or read
    from the document. *)
Theorem build_return_dict_reboot_member
    (doc : Element) (resource_uri : string)
    (is_commit_required_value is_reboot_required_value
       commit_required_value : pyval) (d : gmap string pyval) :
  build_return_dict doc resource_uri is_commit_required_value
    is_reboot_required_value commit_required_value = Return d ->
  exists v, d !! "is_reboot_required" = Some v /\ reboot_required_member v.
Proof.
  intros H.
  apply build_return_dict_Return in H as (c' & r' & l' & -> & _ & Hr & _).
  exists r'. split; [reflexivity |].
  destruct (is_None is_reboot_required_value).
  - by apply (reboot_required_Return_member doc resource_uri).
  - by destruct Hr as [-> ?].
Qed.

Lemma build_return_dict_reboot_member_witness :
  exists v,
    ({[ "is_commit_required" := PyBool true;
        "is_reboot_required" := PyBool false;
        "commit_required" := PyBool false ]} : gmap string pyval)
      !! "is_reboot_required" = Some v
    /\ reboot_required_member v.
Proof.
  apply (build_return_dict_reboot_member doc_pending sample_uri
           PyNone PyNone PyNone).
  reflexivity.
Defined.

Lemma text_lower_Raise_kind (o : option Element) (e : exn) :
  text_lower o = Raise e ->
  e = AttributeError "text" \/ e = AttributeError "lower".
Proof.
  unfold text_lower. destruct o as [x|]; [| intros [= <-]; by left].
  destruct (text x); [done | intros [= <-]; by right].
Qed.

Lemma readers_Raise_kind (doc : Element) (uri : string) (e : exn) :
  is_commit_required doc uri = Raise e
  \/ reboot_required doc uri = Raise e
  \/ is_reboot_required doc uri = Raise e ->
  e = AttributeError "text" \/ e = AttributeError "lower"
  \/ exists k, e = KeyError k.
Proof.
  unfold is_commit_required, reboot_required, is_reboot_required.
  intros [H | [H | H]].
  - apply bind_mret_Raise, text_lower_Raise_kind in H. tauto.
  - destruct (text_lower _) as [t|e'] eqn:Ht; simpl in H.
    + destruct (REBOOT_REQUIRED !! t); [done |]. injection H as <-. eauto.
    + injection H as <-. apply text_lower_Raise_kind in Ht. tauto.
  - apply bind_mret_Raise, text_lower_Raise_kind in H. tauto.
Qed.

(** X15.  [build_return_dict] raises [InvalidParameterValue], an attribute
    error on [text] or on [lower], or [KeyError], and nothing else: a
    missing or empty field is never reported with
    [DRACMissingResponseField] or [DRACEmptyResponseField]. *)
Theorem build_return_dict_raises
    (doc : Element) (resource_uri : string)
    (is_commit_required_value is_reboot_required_value
       commit_required_value : pyval) (e : exn) :
  build_return_dict doc resource_uri is_commit_required_value
    is_reboot_required_value commit_required_value = Raise e ->
  (e = InvalidParameterValue
         (invalid_reboot_required_msg is_reboot_required_value)
   /\ is_reboot_required_value <> PyNone
   /\ ~ reboot_required_member is_reboot_required_value)
  \/ e = AttributeError "text" \/ e = AttributeError "lower"
  \/ exists k, e = KeyError k.
Proof.
  rewrite build_return_dict_binds.
  destruct (negb (is_None is_reboot_required_value)
            && negb (py_in is_reboot_required_value RebootRequired.all))
    eqn:Hg.
  - intros [= <-]. left. apply andb_true_iff in Hg as [Hn Hin].
    apply negb_true_iff in Hn, Hin. split; [done | split].
    + by apply is_None_false.
    + intros Hm. apply py_in_member in Hm. congruence.
  - intros H. right. apply (readers_Raise_kind doc resource_uri).
    destruct (is_None is_commit_required_value).
    + destruct (is_commit_required doc resource_uri) as [bc|ec];
        [| left; by injection H as <-]. simpl in H.
      destruct (is_None is_reboot_required_value).
      * destruct (reboot_required doc resource_uri) as [vr|er];
          [| right; left; by injection H as <-]. simpl in H.
        destruct (is_None commit_required_value); [| done].
        destruct (is_reboot_required doc resource_uri) as [bl|el];
          [done | right; right; by injection H as <-].
      * simpl in H. destruct (is_None commit_required_value); [| done].
        destruct (is_reboot_required doc resource_uri) as [bl|el];
          [done | right; right; by injection H as <-].
    + simpl in H. destruct (is_None is_reboot_required_value).
      * destruct (reboot_required doc resource_uri) as [vr|er];
          [| right; left; by injection H as <-]. simpl in H.
        destruct (is_None commit_required_value); [| done].
        destruct (is_reboot_required doc resource_uri) as [bl|el];
          [done | right; right; by injection H as <-].
      * simpl in H. destruct (is_None commit_required_value); [| done].
        destruct (is_reboot_required doc resource_uri) as [bl|el];
          [done | right; right; by injection H as <-].
Qed.

Lemma build_return_dict_raises_witness :
  build_return_dict doc_root_only sample_uri PyNone PyNone PyNone
    = Raise (AttributeError "text")
  /\ ((AttributeError "text"
        = InvalidParameterValue (invalid_reboot_required_msg PyNone)
      /\ PyNone <> PyNone /\ ~ reboot_required_member PyNone)
     \/ AttributeError "text" = AttributeError "text"
     \/ AttributeError "text" = AttributeError "lower"
     \/ exists k, AttributeError "text" = KeyError k).
Proof.
  split; [reflexivity |].
  apply (build_return_dict_raises doc_root_only sample_uri
           PyNone PyNone PyNone (AttributeError "text")).
  reflexivity.
Defined.

(** X16.  Without overrides the legacy [commit_required] is true exactly
    when [is_reboot_required] is true; when [is_reboot_required] is
    [optional] or false, [commit_required] is false. *)
Theorem build_return_dict_legacy_field
    (doc : Element) (resource_uri : string) (d : gmap string pyval) :
  build_return_dict doc resource_uri PyNone PyNone PyNone = Return d ->
  (d !! "commit_required" = Some (PyBool true)
   <-> d !! "is_reboot_required" = Some (PyBool true))
  /\ (d !! "is_reboot_required" = Some (PyStr "optional")
       \/ d !! "is_reboot_required" = Some (PyBool false) ->
      d !! "commit_required" = Some (PyBool false)).
Proof.
  intros H.
  apply build_return_dict_Return in H
    as (c' & r' & l' & -> & _ & Hr & (b & Hb & ->)).
  simpl in Hr.
  pose proof (reboot_required_is_reboot_required _ _ _ _ Hr Hb) as Hagree.
  change (({[ "is_commit_required" := c'; "is_reboot_required" := r';
              "commit_required" := PyBool b ]} : gmap string pyval)
            !! "commit_required") with (Some (PyBool b)).
  change (({[ "is_commit_required" := c'; "is_reboot_required" := r';
              "commit_required" := PyBool b ]} : gmap string pyval)
            !! "is_reboot_required") with (Some r').
  split.
  - split.
    + intros [= ->]. f_equal. by apply Hagree.
    + intros [= ->]. do 2 f_equal. by apply Hagree.
  - intros Hcase. do 2 f_equal. destruct b; [| done].
    assert (r' = PyBool true) as -> by (by apply Hagree).
    by destruct Hcase as [[=] | [=]].
Qed.

Lemma build_return_dict_legacy_field_witness :
  exists d,
    build_return_dict (doc_reboot_set "Optional") sample_uri
      PyNone PyNone PyNone = Return d
    /\ d !! "is_reboot_required" = Some (PyStr "optional")
    /\ d !! "commit_required" = Some (PyBool false).
Proof.
  eexists. split; [reflexivity | split; [reflexivity |]].
  apply (proj2 (build_return_dict_legacy_field
                  (doc_reboot_set "Optional") sample_uri _ eq_refl)).
  left. reflexivity.
Defined.

(** ** Integer validation, continued *)

(** X17.  A string that is empty or made of whitespace only is reported as
    not an integer value; it is not taken for a value that is not
    supplied. *)
Theorem validate_integer_value_blank
    (s attr_name : string) (error_msgs : list string) :
  Str.all_space s ->
  validate_integer_value (PyStr s) attr_name error_msgs
    = Return (PyNone,
              (error_msgs
                 ++ ["'" +:+ attr_name +:+ "' is not an integer value"])%list).
Proof.
  intros H. unfold validate_integer_value, py_int, IntParse.of_str.
  by rewrite (strip_all_space s H).
Qed.

Lemma validate_integer_value_blank_witness :
  validate_integer_value (PyStr "") "port" ["first"]
    = Return (PyNone, ["first"; "'port' is not an integer value"])
  /\ validate_integer_value (PyStr "  ") "port" []
    = Return (PyNone, ["'port' is not an integer value"]).
Proof.
  split.
  - apply (validate_integer_value_blank "" "port" ["first"]).
    intros c [].
  - apply (validate_integer_value_blank "  " "port" []).
    intros c [<- | [<- | []]]; reflexivity.
Defined.

(** What a call appends does not depend on what the list holds. *)
Lemma validate_integer_value_frame
    (value : pyval) (attr_name : string) (error_msgs : list string) :
  validate_integer_value value attr_name error_msgs
  = match validate_integer_value value attr_name [] with
    | Return (r, m) => Return (r, (error_msgs ++ m)%list)
    | Raise e => Raise e
    end.
Proof.
  unfold validate_integer_value. destruct (is_None value); [done |].
  destruct (py_int value) as [n|[]]; simpl; try done.
  by rewrite app_nil_r.
Qed.

(** X18.  Validations accumulate in the order of the calls: after two calls
    on the same list, the list is the initial one followed by what the first
    call reports and then by what the second reports, each being what the
    call reports on an empty list, at most one message. *)
Theorem validate_integer_value_twice
    (value1 value2 : pyval) (attr_name1 attr_name2 : string)
    (error_msgs msgs1 msgs2 : list string) (r1 r2 : pyval) :
  validate_integer_value value1 attr_name1 error_msgs = Return (r1, msgs1) ->
  validate_integer_value value2 attr_name2 msgs1 = Return (r2, msgs2) ->
  exists m1 m2,
    validate_integer_value value1 attr_name1 [] = Return (PyNone, m1)
    /\ validate_integer_value value2 attr_name2 [] = Return (PyNone, m2)
    /\ msgs2 = (error_msgs ++ m1 ++ m2)%list
    /\ (length m1 <= 1)%nat /\ (length m2 <= 1)%nat.
Proof.
  rewrite (validate_integer_value_frame value1 attr_name1 error_msgs),
    (validate_integer_value_frame value2 attr_name2 msgs1).
  unfold validate_integer_value.
  destruct (is_None value1), (is_None value2);
    try destruct (py_int value1) as [n1|[]];
    try destruct (py_int value2) as [n2|[]]; simpl; try done;
    intros [= <- <-] [= <- <-]; eexists _, _;
    (split; [reflexivity |]); (split; [reflexivity |]);
    rewrite ?app_nil_r, <- ?app_assoc; simpl; (split; [reflexivity |]); lia.
Qed.

Lemma validate_integer_value_twice_witness :
  exists m1 m2,
    validate_integer_value PyNone "port" [] = Return (PyNone, m1)
    /\ validate_integer_value (PyStr "x") "size" [] = Return (PyNone, m2)
    /\ ["seen"; "'port' is not supplied"; "'size' is not an integer value"]
       = (["seen"] ++ m1 ++ m2)%list
    /\ (length m1 <= 1)%nat /\ (length m2 <= 1)%nat.
Proof.
  apply (validate_integer_value_twice PyNone (PyStr "x") "port" "size"
           ["seen"] ["seen"; "'port' is not supplied"]
           ["seen"; "'port' is not supplied"; "'size' is not an integer value"]
           PyNone PyNone); reflexivity.
Defined.

(** ** Where [find_xml] looks *)







(** X20.  With [nullable] true the two calls agree on a first element that
    is not marked nil: when [get_all_wsman_resource_attrs] returns a list
    and the first element of the field is not marked nil,
    [get_wsman_resource_attr] returns the head of that list.  When the first
    element is marked nil it returns [None], although the list may begin
    with the text of a later element. *)
Theorem get_wsman_resource_attr_nullable_head_of_all
    (doc : Element) (resource_uri attr_name : string) (allow_missing : bool)
    (l : list string) (item : Element) :
  get_all_wsman_resource_attrs doc resource_uri attr_name true = Return l ->
  head (elements_named doc resource_uri attr_name) = Some item ->
  (_is_attr_non_nil item = true ->
     get_wsman_resource_attr doc resource_uri attr_name true allow_missing
       = Return (head l))
  /\ (_is_attr_non_nil item = false ->
     get_wsman_resource_attr doc resource_uri attr_name true allow_missing
       = Return None).
Proof.
  intros H Hh.
  apply get_all_wsman_resource_attrs_Return in H as (ts & Hts & ->).
  rewrite get_wsman_resource_attr_cases, Hh.
  apply head_Some in Hh as [rest Hrest]. rewrite Hrest in Hts. split.
  - intros Hn. rewrite filter_cons_True in Hts by done.
    apply Forall2_cons_inv_l in Hts as (t & ts' & Ht & _ & ->).
    by rewrite Ht, Hn.
  - intros Hn. rewrite Hn. by destruct (text item).
Qed.

Lemma get_wsman_resource_attr_nullable_head_of_all_witness :
  get_wsman_resource_attr doc_addresses sample_uri "Address" true false
    = Return (Some "10.0.0.1")
  /\ get_all_wsman_resource_attrs doc_nil_first sample_uri "Address" true
    = Return ["10.0.0.3"]
  /\ get_wsman_resource_attr doc_nil_first sample_uri "Address" true false
    = Return None.
Proof.
  split; [| split; [reflexivity |]].
  - apply (proj1 (get_wsman_resource_attr_nullable_head_of_all
                    doc_addresses sample_uri "Address" false
                    ["10.0.0.1"; "10.0.0.3"]
                    (leaf "{urn:sample}Address" (Some " 10.0.0.1 "))
                    eq_refl eq_refl)).
    reflexivity.
  - apply (proj2 (get_wsman_resource_attr_nullable_head_of_all
                    doc_nil_first sample_uri "Address" false
                    ["10.0.0.3"]
                    (nil_leaf "{urn:sample}Address" "true" None)
                    eq_refl eq_refl)).
    reflexivity.
Defined.

(** ** Integers written in decimal *)











